(** * neurofinder: the [Job] class of [src/neurofinder/job.py]

    A shallow embedding of the pull-request job (status store operations,
    validation, execution and metric aggregation) and the properties of it
    that the specification states.

    Python code runs here in a state-and-exception monad over a [World]
    holding the mongo collection, the clock and a trace of the calls made on
    the collaborators (printer, git, the Spark/Thunder session, S3).  What
    the collaborators answer (file system, imports, S3 contents, the data
    sets, the submitted code) is given by an [Env] record of oracles. *)

From Stdlib Require Import ZArith String Ascii List Bool Lia.
From Stdlib Require Import Floats.SpecFloat.
From stdpp Require Import gmap strings list fin_maps pretty.

Open Scope string_scope.
Open Scope Z_scope.
Open Scope list_scope.

(** ** Exceptions and results *)

(** The classes the source names in its [except] clauses, and the rest of the
    [Exception] hierarchy.  Subclasses are folded into the class the handlers
    test for ([ModuleNotFoundError] is an [ImportError], a JSON decoding error
    is a [ValueError], a missing file is an [IOError]).  Only classes derived
    from [Exception] are modelled, so [except Exception] catches every [exn];
    the signals that end the interpreter ([SystemExit], [KeyboardInterrupt])
    are left out. *)
Inductive exn : Type :=
  | IOError
  | ValueError
  | ImportError
  | KeyError (key : string)
  | TypeError
  | SyntaxError
  | Exception (msg : string).

Inductive result (A : Type) : Type :=
  | Ok (a : A)
  | Raise (e : exn).
Arguments Ok {A} a.
Arguments Raise {A} e.

#[global] Instance exn_eq_dec : EqDecision exn.
Proof. solve_decision. Defined.

(** ** Stored documents *)

Inductive pyval : Type :=
  | VBool (b : bool)
  | VInt (z : Z)
  | VStr (s : string).

#[global] Instance pyval_eq_dec : EqDecision pyval.
Proof. solve_decision. Defined.

(** A mongo document: a dictionary from field names to values. *)
Abbreviation doc := (gmap string pyval).

(** ** Collaborator calls recorded in the trace *)

Inductive event : Type :=
  | PrinterStatus (msg : string)
  | PrinterSuccess
  | PrinterError (msg : option string)
  | PrintText (text : string)
  | IssueComment (msg : string)
  | Subprocess (argv : list string)
  | Chdir (dir : string)
  | SysPathAppend (dir : string)
  | EngineStart (master appName : string)
  | EngineAddPyFile
  | EngineLoadImages (path : string)
  | EngineLoadSources (path : string)
  | EngineStop
  | S3Put (key : string).

#[global] Instance event_eq_dec : EqDecision event.
Proof. solve_decision. Defined.

(** ** The world the job runs in *)

Record World : Type := mkWorld {
  collection : list doc;   (* the mongo collection, in insertion order *)
  now : Z;                 (* what int(time.mktime(time.gmtime())) reads *)
  trace : list event       (* calls made so far, oldest first *)
}.

(** ** The monad: state passing with exceptions *)

Definition M (A : Type) : Type := World -> result A * World.

Definition ret {A} (a : A) : M A := fun w => (Ok a, w).

Definition bind {A B} (c : M A) (k : A -> M B) : M B :=
  fun w => match c w with
           | (Ok a, w') => k a w'
           | (Raise e, w') => (Raise e, w')
           end.

Definition raise {A} (e : exn) : M A := fun w => (Raise e, w).

(** [try: body except <classes>: handler]; [handles e] tells whether the
    clause matches.  State changes made before the raise are kept. *)
Definition try_except {A} (body : M A) (handles : exn -> bool)
    (handler : exn -> M A) : M A :=
  fun w => match body w with
           | (Ok a, w') => (Ok a, w')
           | (Raise e, w') => if handles e then handler e w' else (Raise e, w')
           end.

(** A collaborator's answer, returned or raised. *)
Definition lift {A} (r : result A) : M A := fun w => (r, w).

Definition emit (ev : event) : M unit :=
  fun w => (Ok tt, mkWorld (collection w) (now w) (trace w ++ [ev])).

Definition get_collection : M (list doc) := fun w => (Ok (collection w), w).

Definition put_collection (c : list doc) : M unit :=
  fun w => (Ok tt, mkWorld c (now w) (trace w)).

Definition get_now : M Z := fun w => (Ok (now w), w).

Declare Scope py_scope.
Delimit Scope py_scope with py.
Notation "x <- c ;; k" := (bind c (fun x => k))
  (at level 100, c at next level, right associativity) : py_scope.
Notation "c ;; k" := (bind c (fun _ => k))
  (at level 100, right associativity) : py_scope.
Open Scope py_scope.

(** ** The status store (pymongo collection) *)

(** A document matches the filter [{"id": i}] when its [id] field is [i]. *)
Definition matches_id (i : Z) (d : doc) : bool :=
  bool_decide (d !! "id" = Some (VInt i)).

(** [collection.find_one({"id": i})]: the first match, or [None]. *)
Definition find_one (i : Z) (c : list doc) : option doc :=
  List.find (matches_id i) c.

(** [collection.insert_one(payload)]. *)
Definition insert_one (payload : doc) (c : list doc) : list doc :=
  c ++ [payload].

(** [collection.update_one({"id": i}, {"$set": {k: v}})]: sets the field in
    the first matching document and nowhere else; no match, no change. *)
Fixpoint update_one (i : Z) (k : string) (v : pyval) (c : list doc) : list doc :=
  match c with
  | [] => []
  | d :: rest =>
      if matches_id i d then <[k := v]> d :: rest
      else d :: update_one i k v rest
  end.

(** ** The pull request and the job *)

(** Broken-down time, as [datetime.utctimetuple()] hands it to [mktime]. *)
Record struct_time : Type := mkTime {
  tm_year : Z; tm_mon : Z; tm_mday : Z;
  tm_hour : Z; tm_min : Z; tm_sec : Z
}.

Record PullRequest : Type := mkPullRequest {
  pr_id : Z;
  pr_user_login : string;
  pr_user_avatar_url : string;
  pr_user_email : string;
  pr_clone_url : string;
  pr_ref : string;
  pr_html_url : string;
  pr_mergeable : bool;
  pr_updated_at : struct_time
}.

Record Job : Type := mkJob {
  pull_req : PullRequest;
  bucket : string;
  dry : bool
}.

Definition id (self : Job) : Z := pr_id (pull_req self).
Definition login (self : Job) : string := pr_user_login (pull_req self).
Definition url (self : Job) : string := pr_clone_url (pull_req self).
Definition branch (self : Job) : string := pr_ref (pull_req self).
Definition ismergeable (self : Job) : bool := pr_mergeable (pull_req self).

(** ** Numbers *)

(** Python floats are IEEE binary64. *)
Abbreviation float := spec_float.
Definition prec : Z := 53.
Definition emax : Z := 1024.
Definition NaN : float := S754_nan.
Definition fadd : float -> float -> float := SFadd prec emax.
Definition fdiv : float -> float -> float := SFdiv prec emax.
Definition float_of_Z (z : Z) : float := binary_normalize prec emax z 0 false.
Definition is_nan (x : float) : bool :=
  match x with S754_nan => true | _ => false end.

(** A metric value: [count] is a Python int, the others are floats. *)
Inductive num : Type :=
  | NInt (z : Z)
  | NFloat (x : float).

Definition to_float (n : num) : float :=
  match n with
  | NInt z => float_of_Z z
  | NFloat x => x
  end.

(** Entries added one by one, left to right, onto [acc]. *)
Definition sum_from (acc : float) (xs : list float) : float :=
  fold_left fadd xs acc.

(** Fewer than eight entries: added left to right, from -0.0. *)
Definition sum_short (xs : list float) : float :=
  sum_from (S754_zero true) xs.

(** Eight running sums [r], each taking one entry of every further group of
    eight; what is left of the entries comes back with them. *)
Fixpoint add_groups (groups : nat) (r xs : list float) : list float * list float :=
  match groups with
  | O => (r, xs)
  | S g => add_groups g (zip_with fadd r (firstn 8 xs)) (skipn 8 xs)
  end.

(** A block of 8 to 128 entries: the first eight start the running sums, the
    full groups of eight after them are added in, the eight sums are added
    in pairs, and the entries left over one by one. *)
Definition sum_block (xs : list float) : float :=
  let '(r, rest) := add_groups (length xs / 8 - 1) (firstn 8 xs) (skipn 8 xs) in
  match r with
  | [r0; r1; r2; r3; r4; r5; r6; r7] =>
      sum_from (fadd (fadd (fadd r0 r1) (fadd r2 r3))
                     (fadd (fadd r4 r5) (fadd r6 r7))) rest
  | _ => sum_short xs
  end.

(** numpy's pairwise summation of a run of float64 entries: fewer than
    eight are added left to right, up to 128 as a block, more by halves,
    the first half cut down to a multiple of eight.  [fuel] bounds the
    halvings; the number of entries is enough. *)
Fixpoint pairwise_sum (fuel : nat) (xs : list float) : float :=
  let n := length xs in
  if (n <? 8)%nat then sum_short xs
  else if (n <=? 128)%nat then sum_block xs
  else match fuel with
       | O => sum_block xs
       | S fuel' =>
           let n2 := (n / 2 - (n / 2) mod 8)%nat in
           fadd (pairwise_sum fuel' (firstn n2 xs)) (pairwise_sum fuel' (skipn n2 xs))
       end.

(** [numpy.sum] of a float array, in binary64: the pairwise sum of the
    entries, added onto the 0.0 the reduction starts from. *)
Definition fsum (xs : list float) : float :=
  fadd (S754_zero false) (pairwise_sum (length xs) xs).

(** [numpy.mean]: the sum over the number of entries; NaN for no entries. *)
Definition mean (xs : list float) : float :=
  fdiv (fsum xs) (float_of_Z (Z.of_nat (length xs))).

(** [numpy.nanmean]: NaN entries are replaced by zero in the sum and left
    out of the count; NaN when nothing is left. *)
Definition nanmean (xs : list float) : float :=
  fdiv (fsum (map (fun x => if is_nan x then S754_zero false else x) xs))
       (float_of_Z (Z.of_nat (length (filter (fun x => is_nan x = false) xs)))).

(** ** Strings *)

Definition nl : string := String (Ascii.ascii_of_nat 10) "".

(** [str(n)] and ["%s" % n] for an int. *)
Definition str_of_int (n : Z) : string := pretty n.

(** [s.split("/")]. *)
Fixpoint split_slash (s : string) : list string :=
  match s with
  | "" => [""]
  | String c rest =>
      if Ascii.eqb c "/"%char then "" :: split_slash rest
      else match split_slash rest with
           | [] => [String c ""]
           | h :: t => String c h :: t
           end
  end.

Fixpoint chars (s : string) : list string :=
  match s with
  | "" => []
  | String c rest => String c "" :: chars rest
  end.

(** [s[:-1]]. *)
Fixpoint drop_last (s : string) : string :=
  match s with
  | "" => ""
  | String c "" => ""
  | String c rest => String c (drop_last rest)
  end.

Definition ends_with_slash (s : string) : bool :=
  match last (chars s) with
  | Some c => bool_decide (c = "/")
  | None => false
  end.

(** [os.path.join(a, b)] on POSIX. *)
Definition path_join (a b : string) : string :=
  match b with
  | String "/"%char _ => b
  | _ => if bool_decide (a = "") || ends_with_slash a then a +:+ b
         else a +:+ "/" +:+ b
  end.

(** ** Parsed JSON *)

(** An object keeps its members as the parsed dictionary lists them, one
    entry per key. *)
#[warnings="-register-all"] Inductive json : Type :=
  | JNull
  | JBool (b : bool)
  | JNum (z : Z)
  | JStr (s : string)
  | JArr (items : list json)
  | JObj (members : list (string * json)).

Fixpoint assoc (k : string) (kv : list (string * json)) : option json :=
  match kv with
  | [] => None
  | (k', v) :: rest => if String.eqb k k' then Some v else assoc k rest
  end.

(** [blob[k]]. *)
Definition getitem (blob : json) (k : string) : result json :=
  match blob with
  | JObj kv => match assoc k kv with
               | Some v => Ok v
               | None => Raise (KeyError k)
               end
  | _ => Raise TypeError
  end.

Fixpoint all_strings (l : list json) : option (list string) :=
  match l with
  | [] => Some []
  | JStr s :: rest => match all_strings rest with
                      | Some ss => Some (s :: ss)
                      | None => None
                      end
  | _ :: _ => None
  end.

(** A byte that continues a UTF-8 sequence: [10xxxxxx]. *)
Definition is_continuation (c : ascii) : bool :=
  match c with
  | Ascii _ _ _ _ _ _ b6 b7 => b7 && negb b6
  end.

Definition starts_with_continuation (s : string) : bool :=
  match s with
  | String c _ => is_continuation c
  | "" => false
  end.

(** The characters (code points) of a text, which is held as UTF-8: a byte
    and the continuation bytes after it make one character. *)
Fixpoint code_points (s : string) : list string :=
  match s with
  | "" => []
  | String c rest =>
      match code_points rest with
      | h :: t =>
          if starts_with_continuation rest then String c h :: t
          else String c "" :: h :: t
      | [] => [String c ""]
      end
  end.

(** [str(x)] of a text: the text. *)
Definition str_of_text (s : string) : string := s.

(** [str(", ".join(x))]: [x] is iterated, a text by its characters and a
    dictionary by its keys; every item has to be a text. *)
Definition join_comma (x : json) : result string :=
  match x with
  | JArr items => match all_strings items with
                  | Some ss => Ok (str_of_text (String.concat ", " ss))
                  | None => Raise TypeError
                  end
  | JStr s => Ok (str_of_text (String.concat ", " (code_points s)))
  | JObj kv => Ok (str_of_text (String.concat ", " (map fst kv)))
  | _ => Raise TypeError
  end.

(** ** Objects handed over by the execution engine and the submission *)

(** An image as [asarray] sees it. *)
Record Image : Type := mkImage { ndim : nat; pixels : string }.

(** The [sources] object the submitted [run] returns. *)
Record Sources : Type := mkSources {
  src_count : Z;
  src_areas : list float;
  src_masks : Image -> result Image
}.

(** The ground truth loaded for a data set. *)
Record Truth : Type := mkTruth {
  similarity : Sources -> result float;
  overlap : Sources -> result (list float);
  distance : Sources -> result (list float)
}.

(** The images loaded for a data set. *)
Record Images : Type := mkImages { images_mean : result Image }.

(** The imported [run] module of a submission. *)
Record RunModule : Type := mkRunModule { run : Images -> result Sources }.

(** ** Oracles for the collaborators *)

Record Env : Type := mkEnv {
  mktime : struct_time -> Z;                  (* int(time.mktime(t)) *)
  mkdtemp : string;                           (* tempfile.mkdtemp() *)
  isdir : string -> bool;                     (* os.path.isdir *)
  isfile : string -> bool;                    (* os.path.isfile *)
  read_file : string -> result string;        (* open(p, 'r').read() *)
  json_loads : string -> result json;         (* json.loads *)
  import_run : string -> result RunModule;    (* import_module('run'), dir on sys.path *)
  getenv : string -> option string;           (* os.getenv *)
  import_thunder : result unit;               (* from thunder import ... *)
  thunder_start : string -> string -> result unit;  (* ThunderContext.start *)
  add_py_file : result unit;                  (* tsc.addPyFile(findThunderEgg()) *)
  loadImages : string -> result Images;       (* tsc.loadImages *)
  loadSources : string -> result Truth;       (* tsc.loadSources *)
  imsave : Image -> bool -> result string;    (* imsave to PNG bytes; gray colour map? *)
  s3_get : string -> string -> result string; (* bucket, key: get_contents_as_string *)
  s3_put : string -> string -> string -> result unit  (* bucket, key, contents *)
}.

(** ** Metrics *)

Record MetricRecord : Type := mkMetricRecord {
  value : num;
  dataset : string;
  contributors : string
}.

Abbreviation Metrics := (gmap string (list MetricRecord)).

(** [metrics[k].append(m)]. *)
Definition append_metric (k : string) (m : MetricRecord) (metrics : Metrics) : Metrics :=
  alter (fun l => l ++ [m]) k metrics.

(** The body of the loop over [metrics.keys()], for one key's list. *)
Definition append_overall (l : list MetricRecord) : list MetricRecord :=
  let overall := mean (map (fun v => to_float (value v)) l) in
  l ++ [mkMetricRecord (NFloat overall) "overall" ""].

(** ** The printer *)

(** [utils.printer] is not part of the source file: its calls are recorded
    in the trace and do not raise. *)
Definition printer_status (msg : string) : M unit := emit (PrinterStatus msg).
Definition printer_success : M unit := emit PrinterSuccess.
Definition printer_error (msg : option string) : M unit := emit (PrinterError msg).

(** ** Methods of [Job] *)

Section JobMethods.

Variable env : Env.
Variable self : Job.

(** [entry[k]] on what [find_one] returned. *)
Definition entry_getitem (entry : option doc) (k : string) : M pyval :=
  match entry with
  | None => raise TypeError
  | Some d => match d !! k with
              | Some v => ret v
              | None => raise (KeyError k)
              end
  end.

(** [t0 < n] for a stored value [t0] and an int [n]. *)
Definition lt_int (t0 : pyval) (n : Z) : M bool :=
  match t0 with
  | VInt z => ret (z <? n)
  | VBool b => ret (Z.b2z b <? n)
  | VStr _ => raise TypeError
  end.

Definition isrecent : M bool :=
  c <- get_collection ;;
  let entry := find_one (id self) c in
  t0 <- entry_getitem entry "last_checked" ;;
  let t := pr_updated_at (pull_req self) in
  let updated_at := mktime env t in
  b <- lt_int t0 updated_at ;;
  if b then ret true else ret false.

(** [not entry]: [None] and the empty dictionary are falsy. *)
Definition not_entry (entry : option doc) : bool :=
  match entry with
  | None => true
  | Some d => bool_decide (d = ∅)
  end.

Definition default_payload : doc :=
  <["id" := VInt (id self)]> (<["login" := VStr (login self)]>
  (<["validated" := VBool false]> (<["executed" := VBool false]>
  (<["last_checked" := VInt 0]> (<["validated_at" := VInt 0]>
  (<["executed_at" := VInt 0]> ∅)))))).

Definition isentry : M unit :=
  c <- get_collection ;;
  let entry := find_one (id self) c in
  if not_entry entry then
    printer_status ("Adding entry for pull request " +:+ str_of_int (id self)
                    +:+ " from user " +:+ login self) ;;
    let payload := default_payload in
    c <- get_collection ;;
    put_collection (insert_one payload c)
  else ret tt.

Definition clear_status (status : string) : M unit :=
  c <- get_collection ;;
  put_collection (update_one (id self) status (VBool false) c).

Definition check_status (status : string) : M pyval :=
  c <- get_collection ;;
  let entry := find_one (id self) c in
  entry_getitem entry status.

Definition update_status (status : string) : M unit :=
  timestamp <- get_now ;;
  c <- get_collection ;;
  put_collection (update_one (id self) status (VBool true) c) ;;
  c <- get_collection ;;
  put_collection (update_one (id self) (status +:+ "_at") (VInt timestamp) c).

Definition send_message (msg : string) : M unit :=
  printer_status ("Sending msg to github: '" +:+ msg +:+ "'") ;;
  (if false then emit (IssueComment msg) else ret tt) ;;
  printer_success.

Definition update_last_checked : M unit :=
  timestamp <- get_now ;;
  c <- get_collection ;;
  put_collection (update_one (id self) "last_checked" (VInt timestamp) c).

Definition post_image (im : Image) (folder : string) (filename : string) : M unit :=
  imfile <- lift (if Nat.eqb (ndim im) 3 then imsave env im false
                  else imsave env im true) ;;
  let key := "neurofinder/images/" +:+ str_of_int (id self) +:+ "/" +:+ folder
             +:+ "/" +:+ filename +:+ ".png" in
  lift (s3_put env (bucket self) key imfile) ;;
  emit (S3Put key).

Definition clone : M (string * string) :=
  let d := mkdtemp env in
  emit (Subprocess ["git"; "clone"; url self; d]) ;;
  emit (Chdir d) ;;
  emit (Subprocess ["git"; "checkout"; "-b"; branch self; "origin/" +:+ branch self]) ;;
  let base := d +:+ "/submissions/" +:+ login self +:+ "/" in
  let module := base +:+ "run/" in
  ret (base, module).

Definition load_info (data_path data_name : string) : M json :=
  match split_slash data_path with
  | [bucket; folder; subfolder] =>
      let key := folder +:+ "/" +:+ subfolder +:+ "/" +:+ data_name +:+ "/info.json" in
      s <- lift (s3_get env bucket key) ;;
      blob <- lift (json_loads env s) ;;
      ret blob
  | _ => raise ValueError
  end.

Definition get_master : M string :=
  s <- lift (read_file env "/root/spark-ec2/cluster-url") ;;
  ret (drop_last s).

(** [traceback.format_exc()], reduced to the name of the exception. *)
Definition format_exc (e : exn) : string :=
  match e with
  | IOError => "IOError"
  | ValueError => "ValueError"
  | ImportError => "ImportError"
  | KeyError k => "KeyError: " +:+ k
  | TypeError => "TypeError"
  | SyntaxError => "SyntaxError"
  | Exception msg => "Exception: " +:+ msg
  end.

(** The body of the loop over the data sets in [execute]. *)
Definition process_dataset (run_mod : RunModule) (data_path name : string)
    (metrics : Metrics) : M Metrics :=
  let images_path := "s3n://" +:+ data_path +:+ "/" +:+ name +:+ "/images/" in
  data <- lift (loadImages env images_path) ;;
  emit (EngineLoadImages images_path) ;;
  let sources_path := "s3n://" +:+ data_path +:+ "/" +:+ name +:+ "/sources/sources.json" in
  truth <- lift (loadSources env sources_path) ;;
  emit (EngineLoadSources sources_path) ;;
  sources <- lift (run run_mod data) ;;
  accuracy <- lift (similarity truth sources) ;;
  ov <- lift (overlap truth sources) ;;
  di <- lift (distance truth sources) ;;
  let count := src_count sources in
  let area := mean (src_areas sources) in
  blob <- load_info data_path name ;;
  names <- lift (getitem blob "contributors") ;;
  contributors <- lift (join_comma names) ;;
  let m := mkMetricRecord (NFloat accuracy) name contributors in
  let metrics := append_metric "accuracy" m metrics in
  let m := mkMetricRecord (NFloat (nanmean ov)) name contributors in
  let metrics := append_metric "overlap" m metrics in
  let m := mkMetricRecord (NFloat (nanmean di)) name contributors in
  let metrics := append_metric "distance" m metrics in
  let m := mkMetricRecord (NInt count) name contributors in
  let metrics := append_metric "count" m metrics in
  let m := mkMetricRecord (NFloat area) name contributors in
  let metrics := append_metric "area" m metrics in
  base_im <- lift (images_mean data) ;;
  im <- lift (src_masks sources base_im) ;;
  post_image im name "sources" ;;
  ret metrics.

(** [for ii, name in enumerate(datasets): ...]. *)
Fixpoint process_datasets (run_mod : RunModule) (data_path : string)
    (datasets : list string) (metrics : Metrics) : M Metrics :=
  match datasets with
  | [] => ret metrics
  | name :: rest =>
      metrics <- process_dataset run_mod data_path name metrics ;;
      process_datasets run_mod data_path rest metrics
  end.

Definition empty_metrics : Metrics :=
  <["accuracy" := []]> (<["overlap" := []]> (<["distance" := []]>
  (<["count" := []]> (<["area" := []]> ∅)))).

Definition execute : M (option Metrics * json) :=
  printer_status ("Executing pull request " +:+ str_of_int (id self)
                  +:+ " from user " +:+ login self) ;;
  bm <- clone ;;
  let '(base, module) := bm in
  f <- lift (read_file env (base +:+ "info.json")) ;;
  info <- lift (json_loads env f) ;;
  emit (SysPathAppend module) ;;
  run_mod <- lift (import_run env module) ;;
  spark_home <- match getenv env "SPARK_HOME" with
                | None | Some "" =>
                    raise (Exception "must assign the environmental variable SPARK_HOME with the location of Spark")
                | Some h => ret h
                end ;;
  emit (SysPathAppend (path_join spark_home "python")) ;;
  emit (SysPathAppend (path_join spark_home "python/lib/py4j-0.8.2.1-src.zip")) ;;
  lift (import_thunder env) ;;
  master <- get_master ;;
  lift (thunder_start env master "neurofinder") ;;
  emit (EngineStart master "neurofinder") ;;
  lift (add_py_file env) ;;
  emit EngineAddPyFile ;;
  let data_path := "neuro.datasets/challenges/neurofinder" in
  let datasets := ["00.00"; "00.01"] in
  let metrics := empty_metrics in
  mm <- try_except
          (metrics <- process_datasets run_mod data_path datasets metrics ;;
           let metrics := append_overall <$> metrics in
           let msg := "Execution successful" in
           printer_success ;;
           update_status "executed" ;;
           ret (Some metrics, msg))
          (fun _ => true)
          (fun e =>
             let metrics := None in
             let msg := "Execution failed" in
             printer_error (Some "failed, returning error") ;;
             emit (PrintText (format_exc e)) ;;
             ret (metrics, msg)) ;;
  let '(metrics, msg) := mm in
  send_message msg ;;
  emit EngineStop ;;
  ret (metrics, info).

(** The running verdict of [validate]: the [validated] flag and the
    [errors] text. *)
Definition fail_with (st : bool * string) (complaint : string) : bool * string :=
  (false, snd st +:+ complaint).

Definition validate : M unit :=
  printer_status ("Validating pull request " +:+ str_of_int (id self)
                  +:+ " from user " +:+ login self) ;;
  bm <- clone ;;
  let '(base, module) := bm in
  let st := (true, "") in
  let st := if negb (ismergeable self)
            then fail_with st ("Submission cannot be merged" +:+ nl) else st in
  let st := if negb (isdir env base)
            then fail_with st ("Missing directory submissions/" +:+ login self +:+ nl)
            else st in
  st <- (if negb (isfile env (base +:+ "info.json"))
         then ret (fail_with st ("Missing info.json" +:+ nl))
         else try_except
                (f <- lift (read_file env (base +:+ "info.json")) ;;
                 _ <- lift (json_loads env f) ;;
                 ret st)
                (fun e => match e with IOError | ValueError => true | _ => false end)
                (fun e => match e with
                          | IOError => ret (fail_with st ("Cannot find info.json file" +:+ nl))
                          | _ => ret (fail_with st ("Error parsing info.json file" +:+ nl))
                          end)) ;;
  let st := if negb (isfile env (module +:+ "run.py"))
            then fail_with st ("Missing run.py" +:+ nl) else st in
  st <- (if negb (isfile env (module +:+ "__init__.py"))
         then ret (fail_with st ("Missing __init__.py" +:+ nl))
         else try_except
                (emit (SysPathAppend module) ;;
                 _ <- lift (import_run env module) ;;
                 ret st)
                (fun e => match e with ImportError => true | _ => false end)
                (fun _ => ret (fail_with st "Cannot import run from run.py"))) ;;
  let '(validated, errors) := st in
  msg <- (if validated then
            let msg := "Validation successful" in
            printer_success ;;
            update_status "validated" ;;
            ret msg
          else
            let msg := "Validation failed:" +:+ nl +:+ errors in
            printer_error None ;;
            ret msg) ;;
  send_message msg.

End JobMethods.

(** ** Observing a run *)

(** The trace entry [send_message msg] leaves. *)
Definition sent (msg : string) : event :=
  PrinterStatus ("Sending msg to github: '" +:+ msg +:+ "'").

(** [sub] occurs in [s]. *)
Definition contains (s sub : string) : Prop :=
  exists pre post, s = pre +:+ sub +:+ post.

Definition is_start (ev : event) : bool :=
  match ev with EngineStart _ _ => true | _ => false end.

Definition is_stop (ev : event) : bool :=
  match ev with EngineStop => true | _ => false end.

Definition count_starts (t : list event) : nat := length (List.filter is_start t).
Definition count_stops (t : list event) : nat := length (List.filter is_stop t).

(** The world after [n] calls of [isentry]. *)
Fixpoint repeat_isentry (self : Job) (n : nat) (w : World) : World :=
  match n with
  | O => w
  | S n' => repeat_isentry self n' (snd (isentry self w))
  end.

(** ** The checks of validation, one by one

    What each check of [validate] looks at, stated on the oracles: the
    complaint a check contributes to the diagnostics (empty when it passes),
    or the exception it lets through. *)

Section Checks.

Variable env : Env.
Variable self : Job.

Definition base_dir : string := mkdtemp env +:+ "/submissions/" +:+ login self +:+ "/".
Definition module_dir : string := base_dir +:+ "run/".

Definition load_metadata : result json :=
  match read_file env (base_dir +:+ "info.json") with
  | Ok f => json_loads env f
  | Raise e => Raise e
  end.

Definition complaint_mergeable : string :=
  if ismergeable self then "" else "Submission cannot be merged" +:+ nl.

Definition complaint_directory : string :=
  if isdir env base_dir then ""
  else "Missing directory submissions/" +:+ login self +:+ nl.

Definition complaint_metadata : result string :=
  if isfile env (base_dir +:+ "info.json") then
    match load_metadata with
    | Ok _ => Ok ""
    | Raise IOError => Ok ("Cannot find info.json file" +:+ nl)
    | Raise ValueError => Ok ("Error parsing info.json file" +:+ nl)
    | Raise e => Raise e
    end
  else Ok ("Missing info.json" +:+ nl).

Definition complaint_entry_point : string :=
  if isfile env (module_dir +:+ "run.py") then "" else "Missing run.py" +:+ nl.

Definition complaint_import : result string :=
  if isfile env (module_dir +:+ "__init__.py") then
    match import_run env module_dir with
    | Ok _ => Ok ""
    | Raise ImportError => Ok "Cannot import run from run.py"
    | Raise e => Raise e
    end
  else Ok ("Missing __init__.py" +:+ nl).

(** Everything [execute] does before its [try] block went through. *)
Record SetupOk (info : json) (run_mod : RunModule) (spark_home master : string)
    : Prop := {
  setup_read : exists f, read_file env (base_dir +:+ "info.json") = Ok f
                         /\ json_loads env f = Ok info;
  setup_import : import_run env module_dir = Ok run_mod;
  setup_spark_home : getenv env "SPARK_HOME" = Some spark_home /\ spark_home <> "";
  setup_thunder : import_thunder env = Ok tt;
  setup_master : exists s, read_file env "/root/spark-ec2/cluster-url" = Ok s
                           /\ master = drop_last s;
  setup_start : thunder_start env master "neurofinder" = Ok tt;
  setup_add_py_file : add_py_file env = Ok tt
}.

End Checks.

Definition data_path : string := "neuro.datasets/challenges/neurofinder".
Definition datasets : list string := ["00.00"; "00.01"].


(** ** What a run of [validate] amounts to *)

Section ValidateOutcome.

Variable env : Env.
Variable self : Job.

(** The calls [validate] makes before its checks. *)
Definition validate_intro : list event :=
  [PrinterStatus ("Validating pull request " +:+ str_of_int (id self)
                  +:+ " from user " +:+ login self);
   Subprocess ["git"; "clone"; url self; mkdtemp env];
   Chdir (mkdtemp env);
   Subprocess ["git"; "checkout"; "-b"; branch self; "origin/" +:+ branch self]].

(** The import is attempted only when the package marker is there. *)
Definition import_events : list event :=
  if isfile env (module_dir env self +:+ "__init__.py")
  then [SysPathAppend (module_dir env self)] else [].

(** The complaints of the five checks, in the order they are made. *)
Definition diagnostics (c3 c5 : string) : string :=
  complaint_mergeable self +:+ complaint_directory env self +:+ c3
  +:+ complaint_entry_point env self +:+ c5.

(** A check's complaint folded into the running verdict. *)
Definition add_complaint (st : bool * string) (c : string) : bool * string :=
  match c with
  | "" => st
  | _ => fail_with st c
  end.

Definition verdict (errors : string) : bool * string :=
  (match errors with "" => true | _ => false end, errors).

Definition validate_outcome (w : World) : result unit * World :=
  match complaint_metadata env self with
  | Raise e => (Raise e, mkWorld (collection w) (now w) (trace w ++ validate_intro))
  | Ok c3 =>
      match complaint_import env self with
      | Raise e => (Raise e, mkWorld (collection w) (now w)
                                     (trace w ++ validate_intro ++ import_events))
      | Ok c5 =>
          match diagnostics c3 c5 with
          | "" =>
              (Ok tt,
               mkWorld (update_one (id self) "validated_at" (VInt (now w))
                          (update_one (id self) "validated" (VBool true) (collection w)))
                       (now w)
                       (trace w ++ validate_intro ++ import_events
                           ++ [PrinterSuccess; sent "Validation successful"; PrinterSuccess]))
          | errors =>
              (Ok tt,
               mkWorld (collection w) (now w)
                       (trace w ++ validate_intro ++ import_events
                           ++ [PrinterError None;
                               sent ("Validation failed:" +:+ nl +:+ errors);
                               PrinterSuccess]))
          end
      end
  end.

End ValidateOutcome.

(** None of the checks of validation fails. *)
Definition checks_pass (env : Env) (self : Job) : Prop :=
  ismergeable self = true
  /\ isdir env (base_dir env self) = true
  /\ isfile env (base_dir env self +:+ "info.json") = true
  /\ (exists j, load_metadata env self = Ok j)
  /\ isfile env (module_dir env self +:+ "run.py") = true
  /\ isfile env (module_dir env self +:+ "__init__.py") = true
  /\ (exists m, import_run env (module_dir env self) = Ok m).

(** ** What a run of [execute] amounts to *)

(** Calls made on the engine and on S3 while the data sets are processed. *)
Definition dataset_event (ev : event) : bool :=
  match ev with
  | EngineLoadImages _ | EngineLoadSources _ | S3Put _ => true
  | _ => false
  end.

(** A computation that neither reads nor writes the collection and the
    clock: it gives one result and appends one list of events, all of them
    accepted by [Q], whatever the world. *)
Definition const_run {A} (Q : event -> bool) (c : M A) : Prop :=
  exists (r : result A) (evs : list event),
    forallb Q evs = true
    /\ forall w, c w = (r, mkWorld (collection w) (now w) (trace w ++ evs)).

Section ExecuteOutcome.

Variable env : Env.
Variable self : Job.

(** The calls [execute] makes before its [try] block. *)
Definition execute_intro (spark_home master : string) : list event :=
  [PrinterStatus ("Executing pull request " +:+ str_of_int (id self)
                  +:+ " from user " +:+ login self);
   Subprocess ["git"; "clone"; url self; mkdtemp env];
   Chdir (mkdtemp env);
   Subprocess ["git"; "checkout"; "-b"; branch self; "origin/" +:+ branch self];
   SysPathAppend (module_dir env self);
   SysPathAppend (path_join spark_home "python");
   SysPathAppend (path_join spark_home "python/lib/py4j-0.8.2.1-src.zip");
   EngineStart master "neurofinder";
   EngineAddPyFile].

Definition success_tail : list event :=
  [PrinterSuccess; sent "Execution successful"; PrinterSuccess; EngineStop].

Definition failure_tail (e : exn) : list event :=
  [PrinterError (Some "failed, returning error"); PrintText (format_exc e);
   sent "Execution failed"; PrinterSuccess; EngineStop].

Definition execute_outcome (info : json) (run_mod : RunModule)
    (spark_home master : string) (w : World)
    : result (option Metrics * json) * World :=
  let w0 := mkWorld (collection w) (now w)
              (trace w ++ execute_intro spark_home master) in
  match process_datasets env self run_mod data_path datasets empty_metrics w0 with
  | (Ok metrics, w1) =>
      (Ok (Some (append_overall <$> metrics), info),
       mkWorld (update_one (id self) "executed_at" (VInt (now w1))
                  (update_one (id self) "executed" (VBool true) (collection w1)))
               (now w1) (trace w1 ++ success_tail))
  | (Raise e, w1) =>
      (Ok (None, info),
       mkWorld (collection w1) (now w1) (trace w1 ++ failure_tail e))
  end.

End ExecuteOutcome.

(** The five records one data set contributes. *)
Definition add_dataset (name contributors : string)
    (accuracy ov di : float) (count : Z) (area : float) (metrics : Metrics) : Metrics :=
  append_metric "area" (mkMetricRecord (NFloat area) name contributors)
    (append_metric "count" (mkMetricRecord (NInt count) name contributors)
       (append_metric "distance" (mkMetricRecord (NFloat di) name contributors)
          (append_metric "overlap" (mkMetricRecord (NFloat ov) name contributors)
             (append_metric "accuracy" (mkMetricRecord (NFloat accuracy) name contributors)
                metrics)))).

Definition metric_names : list string :=
  ["accuracy"; "overlap"; "distance"; "count"; "area"].

(** The record the loop over [metrics.keys()] appends after the records
    [r0] and [r1] of the two data sets. *)
Definition overall_record (r0 r1 : MetricRecord) : MetricRecord :=
  mkMetricRecord (NFloat (mean [to_float (value r0); to_float (value r1)]))
    "overall" "".
(** ** A sample deployment *)

Module Sample.

Definition half : float := fdiv (float_of_Z 1) (float_of_Z 2).

Definition pr (mergeable : bool) : PullRequest :=
  mkPullRequest 7 "alice" "https://avatars/alice" "alice@example.org"
    "https://github.com/alice/neurofinder.git" "submission"
    "https://github.com/codeneuro/neurofinder/pull/7" mergeable
    (mkTime 2015 6 1 12 0 30).

Definition job (mergeable : bool) : Job := mkJob (pr mergeable) "code.neuro" false.

Definition base : string := "/tmp/tmpq3x/submissions/alice/".

Definition all_files : list string :=
  [base +:+ "info.json"; base +:+ "run/run.py"; base +:+ "run/__init__.py"].

Definition sources : Sources :=
  mkSources 10 [float_of_Z 4; float_of_Z 6] (fun b => Ok b).

(** Ground truth whose overlap with the candidate sources is [ov]. *)
Definition truth (ov : list float) : Truth :=
  mkTruth (fun _ => Ok half) (fun _ => Ok ov) (fun _ => Ok [float_of_Z 3]).

Definition run_module : RunModule := mkRunModule (fun _ => Ok sources).

Definition images : Images := mkImages (Ok (mkImage 2 "mean")).

Definition info : json := JObj [("contributors", JArr [JStr "a"; JStr "b"])].

(** [files]: the files present in the clone; [imported]: what importing
    [run] gives; [load]: what loading a data set's images gives; [ov1]:
    the overlaps found on the second data set. *)
Definition env (files : list string) (imported : result RunModule)
    (load : string -> result Images) (ov1 : list float) : Env := {|
  mktime := fun t => 1433116800 + 86400 * (tm_mday t - 1) + 3600 * tm_hour t
                     + 60 * tm_min t + tm_sec t;
  mkdtemp := "/tmp/tmpq3x";
  isdir := fun p => bool_decide (p = base);
  isfile := fun p => bool_decide (p ∈ files);
  read_file := fun p => if bool_decide (p = "/root/spark-ec2/cluster-url")
                        then Ok ("spark://master:7077" +:+ nl)
                        else Ok "{contributors: [a, b]}";
  json_loads := fun _ => Ok info;
  import_run := fun _ => imported;
  getenv := fun _ => Some "/opt/spark";
  import_thunder := Ok tt;
  thunder_start := fun _ _ => Ok tt;
  add_py_file := Ok tt;
  loadImages := load;
  loadSources := fun p =>
    if bool_decide (p = "s3n://neuro.datasets/challenges/neurofinder/00.00/sources/sources.json")
    then Ok (truth [half]) else Ok (truth ov1);
  imsave := fun _ _ => Ok "png";
  s3_get := fun _ _ => Ok "{contributors: [a, b]}";
  s3_put := fun _ _ _ => Ok tt
|}.

Definition good_env : Env :=
  env all_files (Ok run_module) (fun _ => Ok images) [half].

(** The overlaps on the second data set are all NaN. *)
Definition nan_env : Env :=
  env all_files (Ok run_module) (fun _ => Ok images) [NaN].

(** Loading the images of the second data set fails. *)
Definition broken_env : Env :=
  env all_files (Ok run_module)
      (fun p => if bool_decide (p = "s3n://neuro.datasets/challenges/neurofinder/00.01/images/")
                then Raise IOError else Ok images) [half].

(** [run.py] is missing from the clone. *)
Definition no_run_env : Env :=
  env [base +:+ "info.json"; base +:+ "run/__init__.py"] (Raise ImportError)
      (fun _ => Ok images) [half].

(** The package marker is missing, and importing [run] would fail. *)
Definition no_marker_env : Env :=
  env [base +:+ "info.json"; base +:+ "run/run.py"] (Raise ImportError)
      (fun _ => Ok images) [half].

(** [run.py] is there but does not parse. *)
Definition syntax_env : Env :=
  env all_files (Raise SyntaxError) (fun _ => Ok images) [half].

Definition record : doc :=
  <["id" := VInt 7]> (<["login" := VStr "alice"]>
  (<["validated" := VBool true]> (<["executed" := VBool false]>
  (<["last_checked" := VInt 1433160000]> (<["validated_at" := VInt 1433150000]>
  (<["executed_at" := VInt 0]> ∅)))))).

Definition other_record : doc :=
  <["id" := VInt 8]> (<["login" := VStr "bob"]> ∅).

Definition fresh_world : World := mkWorld [other_record] 1433170000 [].
Definition world : World := mkWorld [other_record; record] 1433170000 [].

(** The metrics a run of [execute] in [e] returns (empty when it returns
    none). *)
Definition run_metrics (e : Env) : Metrics :=
  match fst (execute e (job true) world) with
  | Ok (Some metrics, _) => metrics
  | _ => ∅
  end.

End Sample.

(** ** The rest of the job *)

(** How many documents of the collection answer to an id. *)
Definition count_id (i : Z) (c : list doc) : nat :=
  length (List.filter (matches_id i) c).

(** The world at another reading of the clock. *)
Definition at_time (t : Z) (w : World) : World :=
  mkWorld (collection w) t (trace w).

(** A computation whose every run, returned or raised, takes the collection
    to one related to it by [R]. *)
Definition store_rel {A} (R : list doc -> list doc -> Prop) (c : M A) : Prop :=
  forall w r w', c w = (r, w') -> R (collection w) (collection w').

(** No record is lost or added, and a record found under an id before is
    found under it after. *)
Definition keeps_records (c c' : list doc) : Prop :=
  length c' = length c
  /\ forall j, count_id j c' = count_id j c.

Definition is_issue_comment (ev : event) : bool :=
  match ev with IssueComment _ => true | _ => false end.

(** The calls made on the engine and on S3 for one data set that goes
    through. *)
Definition dataset_trace (self : Job) (name : string) : list event :=
  [EngineLoadImages ("s3n://" +:+ data_path +:+ "/" +:+ name +:+ "/images/");
   EngineLoadSources ("s3n://" +:+ data_path +:+ "/" +:+ name +:+ "/sources/sources.json");
   S3Put ("neurofinder/images/" +:+ str_of_int (id self) +:+ "/" +:+ name
          +:+ "/" +:+ "sources" +:+ ".png")].

(** A computation whose every run, returned or raised, relates the
    collection before and after by [R], leaves the clock alone and only
    appends events accepted by [Q] to the trace. *)
Definition run_inv {A} (Q : event -> bool) (R : list doc -> list doc -> Prop)
    (c : M A) : Prop :=
  forall w r w', c w = (r, w') ->
    R (collection w) (collection w')
    /\ now w' = now w
    /\ exists new, trace w' = trace w ++ new /\ forallb Q new = true.

Definition not_issue_comment (ev : event) : bool := negb (is_issue_comment ev).

(** Calls on the engine session and on S3. *)
Definition is_engine_or_s3 (ev : event) : bool :=
  match ev with
  | EngineStart _ _ | EngineAddPyFile | EngineLoadImages _ | EngineLoadSources _
  | EngineStop | S3Put _ => true
  | _ => false
  end.

Definition not_engine_or_s3 (ev : event) : bool := negb (is_engine_or_s3 ev).

(** The key [post_image] publishes under. *)
Definition image_key (self : Job) (folder filename : string) : string :=
  "neurofinder/images/" +:+ str_of_int (id self) +:+ "/" +:+ folder
  +:+ "/" +:+ filename +:+ ".png".

(** ** More sample deployments *)

Module Sample2.

(** [Sample.good_env] with other answers for the environment variable, for
    [addPyFile] and for the S3 reads. *)
Definition env (home : option string) (add : result unit)
    (get : string -> string -> result string) : Env := {|
  mktime := mktime Sample.good_env;
  mkdtemp := mkdtemp Sample.good_env;
  isdir := isdir Sample.good_env;
  isfile := isfile Sample.good_env;
  read_file := read_file Sample.good_env;
  json_loads := json_loads Sample.good_env;
  import_run := import_run Sample.good_env;
  getenv := fun _ => home;
  import_thunder := import_thunder Sample.good_env;
  thunder_start := thunder_start Sample.good_env;
  add_py_file := add;
  loadImages := loadImages Sample.good_env;
  loadSources := loadSources Sample.good_env;
  imsave := imsave Sample.good_env;
  s3_get := get;
  s3_put := s3_put Sample.good_env
|}.

(** [SPARK_HOME] is not set. *)
Definition no_spark_env : Env := env None (Ok tt) (fun _ _ => Ok "{}").

(** The Thunder egg cannot be shipped to the session. *)
Definition no_egg_env : Env :=
  env (Some "/opt/spark") (Raise (Exception "no egg")) (fun _ _ => Ok "{}").

End Sample2.
(** * Properties *)

(** ** Strings *)

Lemma append_cons (c : ascii) (s t : string) : String c s +:+ t = String c (s +:+ t).
Proof. reflexivity. Qed.

Lemma append_nil_r (s : string) : s +:+ "" = s.
Proof. induction s as [|c s IH]; [reflexivity|]. rewrite append_cons. now f_equal. Qed.

Lemma append_assoc (a b c : string) : (a +:+ b) +:+ c = a +:+ (b +:+ c).
Proof. induction a as [|x a IH]; [reflexivity|]. rewrite !append_cons. now f_equal. Qed.

Lemma length_append (a b : string) :
  String.length (a +:+ b) = (String.length a + String.length b)%nat.
Proof.
  induction a as [|x a IH]; [reflexivity|].
  rewrite append_cons. simpl. now f_equal.
Qed.

Lemma append_suffix_neq (s t : string) : t <> "" -> s <> s +:+ t.
Proof.
  intros Ht Heq. apply (f_equal String.length) in Heq.
  rewrite length_append in Heq. destruct t; [congruence | simpl in Heq; lia].
Qed.

(** ** The status store *)

Lemma matches_id_true i d : matches_id i d = true <-> d !! "id" = Some (VInt i).
Proof. unfold matches_id. apply bool_decide_eq_true. Qed.

Lemma find_one_Some i c d :
  find_one i c = Some d ->
  exists pre post, c = pre ++ d :: post
    /\ find_one i pre = None /\ d !! "id" = Some (VInt i).
Proof.
  unfold find_one. induction c as [|x c IH]; simpl; [discriminate|].
  destruct (matches_id i x) eqn:Hx.
  - intros [= ->]. exists [], c. repeat split. now apply matches_id_true.
  - intros H. destruct (IH H) as (pre & post & -> & Hpre & Hid).
    exists (x :: pre), post. repeat split; [|assumption]. simpl. now rewrite Hx.
Qed.

Lemma find_one_app_None i pre c :
  find_one i pre = None -> find_one i (pre ++ c) = find_one i c.
Proof.
  unfold find_one. induction pre as [|x pre IH]; simpl; [reflexivity|].
  destruct (matches_id i x); [discriminate | exact IH].
Qed.

Lemma find_one_here i d post :
  d !! "id" = Some (VInt i) -> find_one i (d :: post) = Some d.
Proof. intros H. unfold find_one. simpl. apply matches_id_true in H. now rewrite H. Qed.

Lemma update_one_split i k v pre d post :
  find_one i pre = None -> d !! "id" = Some (VInt i) ->
  update_one i k v (pre ++ d :: post) = pre ++ <[k := v]> d :: post.
Proof.
  intros Hpre Hd. induction pre as [|x pre IH]; simpl.
  - apply matches_id_true in Hd. now rewrite Hd.
  - unfold find_one in Hpre. simpl in Hpre. destruct (matches_id i x); [discriminate|].
    now rewrite IH.
Qed.

Lemma update_one_None i k v c :
  find_one i c = None -> update_one i k v c = c.
Proof.
  unfold find_one. induction c as [|x c IH]; simpl; [reflexivity|].
  destruct (matches_id i x); [discriminate|]. intros H. now rewrite IH.
Qed.

(** A document found under an id is never the empty dictionary. *)
Lemma find_one_not_empty i c d : find_one i c = Some d -> d <> ∅.
Proof.
  intros H. destruct (find_one_Some _ _ _ H) as (_ & _ & _ & _ & Hid).
  intros ->. rewrite lookup_empty in Hid. discriminate.
Qed.

(** ** Staleness *)

(** C3: for a submission with a stored record, [isrecent] returns true
    exactly when the stored [last_checked] is strictly less than the epoch
    conversion of the submission's [updated_at], false when they are equal
    or [last_checked] is later, and it leaves the world (collection
    included) as it found it. *)
Theorem isrecent_strictly_newer (env : Env) (self : Job) (w : World)
    (entry : doc) (t0 : Z) :
  find_one (id self) (collection w) = Some entry ->
  entry !! "last_checked" = Some (VInt t0) ->
  exists b, isrecent env self w = (Ok b, w)
    /\ (b = true <-> t0 < mktime env (pr_updated_at (pull_req self)))
    /\ (b = false <-> mktime env (pr_updated_at (pull_req self)) <= t0).
Proof.
  intros Hfind Hlast.
  exists (t0 <? mktime env (pr_updated_at (pull_req self))).
  split.
  - unfold isrecent, bind, get_collection, entry_getitem, lt_int, ret.
    rewrite Hfind, Hlast.
    now destruct (t0 <? mktime env (pr_updated_at (pull_req self))).
  - split.
    + apply Z.ltb_lt.
    + rewrite Z.ltb_ge. reflexivity.
Qed.

Lemma isrecent_strictly_newer_witness :
  exists b, isrecent Sample.good_env (Sample.job true) Sample.world = (Ok b, Sample.world)
    /\ (b = true <-> 1433160000 < 1433160030)
    /\ (b = false <-> 1433160030 <= 1433160000).
Proof.
  apply (isrecent_strictly_newer Sample.good_env (Sample.job true) Sample.world
           Sample.record 1433160000); reflexivity.
Defined.

(** ** Entries *)

Lemma default_payload_id self : default_payload self !! "id" = Some (VInt (id self)).
Proof. reflexivity. Qed.

Lemma isentry_fresh self w :
  find_one (id self) (collection w) = None ->
  isentry self w =
    (Ok tt, mkWorld (collection w ++ [default_payload self]) (now w)
              (trace w ++ [PrinterStatus ("Adding entry for pull request "
                 +:+ str_of_int (id self) +:+ " from user " +:+ login self)])).
Proof.
  intros H. unfold isentry, bind, get_collection. simpl. rewrite H. reflexivity.
Qed.

Lemma isentry_present self w d :
  find_one (id self) (collection w) = Some d -> isentry self w = (Ok tt, w).
Proof.
  intros H. unfold isentry, bind, get_collection. simpl. rewrite H. simpl.
  rewrite bool_decide_eq_false_2; [reflexivity|]. eapply find_one_not_empty, H.
Qed.

Lemma find_one_inserted self c :
  find_one (id self) c = None ->
  find_one (id self) (c ++ [default_payload self]) = Some (default_payload self).
Proof.
  intros H. rewrite find_one_app_None by assumption.
  apply find_one_here, default_payload_id.
Qed.

Lemma repeat_isentry_present self d n : forall w,
  find_one (id self) (collection w) = Some d -> repeat_isentry self n w = w.
Proof.
  induction n as [|n IH]; intros w H; simpl; [reflexivity|].
  rewrite (isentry_present _ _ _ H). simpl. now apply IH.
Qed.

(** C4: on a collection with no record for the submission, [isentry]
    inserts exactly the default record (the id and login, both flags false,
    the three timestamps 0); any number of further calls leaves the world
    unchanged, and [check_status "validated"] returns false after any
    positive number of calls. *)
Theorem isentry_idempotent (self : Job) (w : World) :
  find_one (id self) (collection w) = None ->
  let w1 := snd (isentry self w) in
  let d := default_payload self in
  collection w1 = collection w ++ [d]
  /\ find_one (id self) (collection w1) = Some d
  /\ (d !! "id" = Some (VInt (id self)) /\ d !! "login" = Some (VStr (login self))
      /\ d !! "validated" = Some (VBool false) /\ d !! "executed" = Some (VBool false)
      /\ d !! "last_checked" = Some (VInt 0) /\ d !! "validated_at" = Some (VInt 0)
      /\ d !! "executed_at" = Some (VInt 0) /\ size d = 7%nat)
  /\ (forall n, repeat_isentry self n w1 = w1)
  /\ (forall n, check_status self "validated" (repeat_isentry self (S n) w)
                = (Ok (VBool false), w1)).
Proof.
  intros Hnone w1 d. subst w1 d. rewrite (isentry_fresh _ _ Hnone). simpl.
  pose proof (find_one_inserted self _ Hnone) as Hfound.
  split; [reflexivity|]. split; [exact Hfound|].
  split; [repeat split; reflexivity|].
  split.
  - intros n. now apply (repeat_isentry_present self (default_payload self)).
  - intros n. rewrite (isentry_fresh _ _ Hnone). simpl.
    rewrite (repeat_isentry_present self (default_payload self)) by exact Hfound.
    unfold check_status, bind, get_collection, entry_getitem. simpl.
    rewrite Hfound. reflexivity.
Qed.

Lemma isentry_idempotent_witness :
  collection (snd (isentry (Sample.job true) Sample.fresh_world))
    = [Sample.other_record; default_payload (Sample.job true)]
  /\ check_status (Sample.job true) "validated"
       (repeat_isentry (Sample.job true) 3 Sample.fresh_world)
     = (Ok (VBool false), snd (isentry (Sample.job true) Sample.fresh_world)).
Proof.
  destruct (isentry_idempotent (Sample.job true) Sample.fresh_world)
    as (Hc & _ & _ & _ & Hs); [reflexivity|].
  split; [exact Hc | exact (Hs 2%nat)].
Defined.

(** ** Setting and clearing flags *)

Lemma clear_status_run self status w :
  clear_status self status w =
    (Ok tt, mkWorld (update_one (id self) status (VBool false) (collection w))
              (now w) (trace w)).
Proof. reflexivity. Qed.

Lemma update_status_run self status w :
  update_status self status w =
    (Ok tt, mkWorld (update_one (id self) (status +:+ "_at") (VInt (now w))
                       (update_one (id self) status (VBool true) (collection w)))
              (now w) (trace w)).
Proof. reflexivity. Qed.

Lemma flag_at_neq (status : string) : status +:+ "_at" <> status.
Proof. intros H. symmetry in H. revert H. now apply append_suffix_neq. Qed.

Lemma flag_at_not_id (status : string) : status +:+ "_at" <> "id".
Proof.
  intros H. apply (f_equal String.length) in H.
  rewrite length_append in H. simpl in H. lia.
Qed.

(** C10: [clear_status] sets the named field of the submission's record to
    false and changes nothing else: the other documents, the other fields
    of the record (the coupled [status + "_at"] timestamp among them), the
    clock and the trace stay as they were.  So after [update_status]
    followed by [clear_status] the record holds the flag false together
    with the timestamp just written, which is not zero when the clock is
    not. *)
Theorem clear_status_frame (self : Job) (status : string) (w : World) (entry : doc) :
  find_one (id self) (collection w) = Some entry ->
  (exists pre post,
      collection w = pre ++ entry :: post
      /\ clear_status self status w =
           (Ok tt, mkWorld (pre ++ <[status := VBool false]> entry :: post)
                     (now w) (trace w)))
  /\ (<[status := VBool false]> entry) !! status = Some (VBool false)
  /\ (forall k, k <> status -> (<[status := VBool false]> entry) !! k = entry !! k)
  /\ (<[status := VBool false]> entry) !! (status +:+ "_at")
       = entry !! (status +:+ "_at")
  /\ (status <> "id" -> now w <> 0 ->
      exists entry2,
        find_one (id self)
          (collection (snd (clear_status self status
                              (snd (update_status self status w))))) = Some entry2
        /\ entry2 !! status = Some (VBool false)
        /\ entry2 !! (status +:+ "_at") = Some (VInt (now w))
        /\ VInt (now w) <> VInt 0).
Proof.
  intros Hfind.
  destruct (find_one_Some _ _ _ Hfind) as (pre & post & Hc & Hpre & Hid).
  split; [|split; [|split; [|split]]].
  - exists pre, post. split; [exact Hc|].
    rewrite clear_status_run, Hc. now rewrite update_one_split.
  - apply lookup_insert_eq.
  - intros k Hk. now apply lookup_insert_ne.
  - apply lookup_insert_ne. intros H. symmetry in H. now apply flag_at_neq in H.
  - intros Hstatus Hnow.
    rewrite update_status_run, clear_status_run. simpl. rewrite Hc.
    assert (Hid1 : (<[status := VBool true]> entry) !! "id" = Some (VInt (id self))).
    { rewrite lookup_insert_ne by assumption. exact Hid. }
    assert (Hid2 : (<[status +:+ "_at" := VInt (now w)]> (<[status := VBool true]> entry))
                     !! "id" = Some (VInt (id self))).
    { rewrite lookup_insert_ne by apply flag_at_not_id. exact Hid1. }
    rewrite (update_one_split _ _ _ pre entry post Hpre Hid).
    rewrite (update_one_split _ _ _ pre _ post Hpre Hid1).
    rewrite (update_one_split _ _ _ pre _ post Hpre Hid2).
    eexists. split.
    + rewrite find_one_app_None by exact Hpre. apply find_one_here.
      rewrite lookup_insert_ne by assumption. exact Hid2.
    + split; [apply lookup_insert_eq|]. split.
      * rewrite lookup_insert_ne.
        -- apply lookup_insert_eq.
        -- intros H. symmetry in H. now apply flag_at_neq in H.
      * congruence.
Qed.

Lemma clear_status_frame_witness :
  exists entry2,
    find_one 7 (collection (snd (clear_status (Sample.job true) "executed"
                  (snd (update_status (Sample.job true) "executed" Sample.world)))))
      = Some entry2
    /\ entry2 !! "executed" = Some (VBool false)
    /\ entry2 !! "executed_at" = Some (VInt 1433170000)
    /\ VInt 1433170000 <> VInt 0.
Proof.
  destruct (clear_status_frame (Sample.job true) "executed" Sample.world Sample.record)
    as (_ & _ & _ & _ & H); [reflexivity|].
  apply H; [discriminate | discriminate].
Defined.

(** ** Running the monad *)

Lemma run_bind_ret {A B} (a : A) (k : A -> M B) w : bind (ret a) k w = k a w.
Proof. reflexivity. Qed.

Lemma run_bind_emit {B} (ev : event) (k : unit -> M B) w :
  bind (emit ev) k w = k tt (mkWorld (collection w) (now w) (trace w ++ [ev])).
Proof. reflexivity. Qed.

Lemma run_bind_lift {A B} (r : result A) (k : A -> M B) w :
  bind (lift r) k w = match r with Ok a => k a w | Raise e => (Raise e, w) end.
Proof. unfold bind, lift. now destruct r. Qed.

Lemma run_bind_bind {A B C} (c : M A) (f : A -> M B) (k : B -> M C) w :
  bind (bind c f) k w = bind c (fun x => bind (f x) k) w.
Proof. unfold bind. destruct (c w) as [[a|e] w1]; reflexivity. Qed.

(** ** Validation, check by check *)

Section ValidateChecks.

Variable env : Env.
Variable self : Job.

Lemma add_complaint_verdict errors c :
  add_complaint (verdict errors) c = verdict (errors +:+ c).
Proof.
  destruct c as [|a c]; simpl.
  - now rewrite append_nil_r.
  - unfold fail_with, verdict. simpl. now destruct errors.
Qed.

Lemma check_mergeable_run st :
  (if negb (ismergeable self)
   then fail_with st ("Submission cannot be merged" +:+ nl) else st)
  = add_complaint st (complaint_mergeable self).
Proof. unfold complaint_mergeable. now destruct (ismergeable self). Qed.

Lemma check_directory_run st :
  (if negb (isdir env (base_dir env self))
   then fail_with st ("Missing directory submissions/" +:+ login self +:+ nl) else st)
  = add_complaint st (complaint_directory env self).
Proof. unfold complaint_directory. now destruct (isdir env (base_dir env self)). Qed.

Lemma check_entry_point_run st :
  (if negb (isfile env (module_dir env self +:+ "run.py"))
   then fail_with st ("Missing run.py" +:+ nl) else st)
  = add_complaint st (complaint_entry_point env self).
Proof.
  unfold complaint_entry_point.
  now destruct (isfile env (module_dir env self +:+ "run.py")).
Qed.

Lemma check_metadata_run {B} st (k : bool * string -> M B) w :
  bind (if negb (isfile env (base_dir env self +:+ "info.json"))
        then ret (fail_with st ("Missing info.json" +:+ nl))
        else try_except
               (f <- lift (read_file env (base_dir env self +:+ "info.json")) ;;
                _ <- lift (json_loads env f) ;;
                ret st)
               (fun e => match e with IOError | ValueError => true | _ => false end)
               (fun e => match e with
                         | IOError => ret (fail_with st ("Cannot find info.json file" +:+ nl))
                         | _ => ret (fail_with st ("Error parsing info.json file" +:+ nl))
                         end)) k w
  = match complaint_metadata env self with
    | Ok c => k (add_complaint st c) w
    | Raise e => (Raise e, w)
    end.
Proof.
  unfold complaint_metadata, load_metadata.
  destruct (isfile env (base_dir env self +:+ "info.json")); [|reflexivity].
  unfold bind, try_except, lift, ret. simpl.
  destruct (read_file env (base_dir env self +:+ "info.json")) as [f|[]];
    try reflexivity.
  destruct (json_loads env f) as [j|[]]; reflexivity.
Qed.

Lemma check_import_run {B} st (k : bool * string -> M B) w :
  bind (if negb (isfile env (module_dir env self +:+ "__init__.py"))
        then ret (fail_with st ("Missing __init__.py" +:+ nl))
        else try_except
               (emit (SysPathAppend (module_dir env self)) ;;
                _ <- lift (import_run env (module_dir env self)) ;;
                ret st)
               (fun e => match e with ImportError => true | _ => false end)
               (fun _ => ret (fail_with st "Cannot import run from run.py"))) k w
  = match complaint_import env self with
    | Ok c => k (add_complaint st c)
                (mkWorld (collection w) (now w) (trace w ++ import_events env self))
    | Raise e => (Raise e, mkWorld (collection w) (now w) (trace w ++ import_events env self))
    end.
Proof.
  unfold complaint_import, import_events.
  destruct (isfile env (module_dir env self +:+ "__init__.py")); simpl.
  - unfold bind, try_except, lift, ret, emit. simpl.
    destruct (import_run env (module_dir env self)) as [m|[]]; reflexivity.
  - rewrite app_nil_r. now destruct w.
Qed.

Lemma validate_run w : validate env self w = validate_outcome env self w.
Proof.
  unfold validate, validate_outcome, printer_status, clone.
  repeat (rewrite run_bind_bind || rewrite run_bind_emit).
  rewrite run_bind_ret.
  cbv beta iota zeta. cbn [collection now trace].
  fold (base_dir env self). fold (module_dir env self).
  rewrite check_mergeable_run, check_directory_run.
  rewrite check_metadata_run.
  rewrite <- !app_assoc. cbn [app]. fold (validate_intro env self).
  destruct (complaint_metadata env self) as [c3|e]; [|reflexivity].
  rewrite check_entry_point_run, check_import_run. cbn [collection now trace].
  rewrite <- !app_assoc.
  destruct (complaint_import env self) as [c5|e]; [|reflexivity].
  change (true, "") with (verdict "").
  rewrite !add_complaint_verdict. change ("" +:+ ?x) with x.
  rewrite !append_assoc. fold (diagnostics env self c3 c5).
  unfold verdict.
  destruct (diagnostics env self c3 c5) as [|a errors]; cbv beta iota.
  - cbv [printer_success update_status send_message printer_status get_now
         get_collection put_collection bind emit ret].
    cbn [collection now trace]. rewrite <- ?app_assoc. reflexivity.
  - cbv [printer_error printer_success send_message printer_status bind emit ret].
    cbn [collection now trace]. rewrite <- ?app_assoc. reflexivity.
Qed.

End ValidateChecks.

(** ** Diagnostics *)

Lemma append_eq_nil (a b : string) : a +:+ b = "" <-> a = "" /\ b = "".
Proof.
  split.
  - destruct a; [now split | discriminate].
  - now intros [-> ->].
Qed.

Lemma contains_refl (s : string) : contains s s.
Proof. exists "", "". now rewrite append_nil_r. Qed.

Lemma contains_append_l (a b sub : string) : contains a sub -> contains (a +:+ b) sub.
Proof.
  intros (pre & post & ->). exists pre, (post +:+ b). now rewrite !append_assoc.
Qed.

Lemma contains_append_r (a b sub : string) : contains b sub -> contains (a +:+ b) sub.
Proof.
  intros (pre & post & ->). exists (a +:+ pre), post. now rewrite !append_assoc.
Qed.

Create HintDb contains.
#[local] Hint Resolve contains_refl contains_append_l contains_append_r : contains.

Lemma diagnostics_contains env self c3 c5 c :
  In c [complaint_mergeable self; complaint_directory env self; c3;
        complaint_entry_point env self; c5] ->
  contains (diagnostics env self c3 c5) c.
Proof.
  unfold diagnostics. simpl.
  intros [<-|[<-|[<-|[<-|[<-|[]]]]]]; auto 10 with contains.
Qed.

Lemma checks_pass_iff env self :
  checks_pass env self <->
  complaint_metadata env self = Ok "" /\ complaint_import env self = Ok ""
  /\ diagnostics env self "" "" = "".
Proof.
  unfold checks_pass, diagnostics, complaint_metadata, complaint_import,
    complaint_mergeable, complaint_directory, complaint_entry_point.
  rewrite !append_eq_nil.
  destruct (ismergeable self), (isdir env (base_dir env self)),
    (isfile env (base_dir env self +:+ "info.json")),
    (isfile env (module_dir env self +:+ "run.py")),
    (isfile env (module_dir env self +:+ "__init__.py"));
    try (split; intros H; decompose [and] H; discriminate).
  destruct (load_metadata env self) as [j|[]],
    (import_run env (module_dir env self)) as [m|[]];
    split; intros H; decompose [and ex] H; try discriminate; eauto 12.
Qed.

Lemma diagnostics_nil env self c3 c5 :
  diagnostics env self c3 c5 = "" -> c3 = "" /\ c5 = "" /\ diagnostics env self "" "" = "".
Proof.
  unfold diagnostics. rewrite !append_eq_nil.
  intros (H1 & H2 & -> & H4 & ->). rewrite H1, H2, H4. repeat split; reflexivity.
Qed.

Lemma checks_pass_diagnostics env self c3 c5 :
  complaint_metadata env self = Ok c3 -> complaint_import env self = Ok c5 ->
  (diagnostics env self c3 c5 = "" <-> checks_pass env self).
Proof.
  intros H3 H5. rewrite checks_pass_iff, H3, H5. split.
  - intros H. destruct (diagnostics_nil _ _ _ _ H) as (-> & -> & Hd). auto.
  - intros ([= ->] & [= ->] & Hd). exact Hd.
Qed.

(** ** Validation *)




(** C5, as the code has it: when no exception escapes [validate], its five
    checks (mergeability; the submission directory; the metadata file,
    loaded only when it is there; [run.py]; the package marker, with the
    import attempted only when it is there) are made whatever the others
    gave, and a failing validation sends one message holding the complaint
    of every check that failed, and marks nothing; in particular a
    submission that cannot be merged and has no [run.py] gets a message
    with both complaints. *)
Theorem validate_accumulates (env : Env) (self : Job) (w : World) (c3 c5 : string) :
  complaint_metadata env self = Ok c3 ->
  complaint_import env self = Ok c5 ->
  ~ checks_pass env self ->
  exists w' msg,
    validate env self w = (Ok tt, w')
    /\ trace w' = trace w ++ validate_intro env self ++ import_events env self
                    ++ [PrinterError None; sent msg; PrinterSuccess]
    /\ collection w' = collection w
    /\ msg = "Validation failed:" +:+ nl +:+ diagnostics env self c3 c5
    /\ (forall c, In c [complaint_mergeable self; complaint_directory env self; c3;
                        complaint_entry_point env self; c5] -> contains msg c)
    /\ (ismergeable self = false ->
        isfile env (module_dir env self +:+ "run.py") = false ->
        contains msg "Submission cannot be merged" /\ contains msg "Missing run.py").
Proof.
  intros H3 H5 Hfail.
  pose proof (checks_pass_diagnostics env self c3 c5 H3 H5) as Hd.
  rewrite validate_run. unfold validate_outcome. rewrite H3, H5.
  destruct (diagnostics env self c3 c5) as [|a errors] eqn:Hdiag.
  { exfalso. now apply Hfail, Hd. }
  rewrite <- Hdiag.
  assert (Hall : forall c,
    In c [complaint_mergeable self; complaint_directory env self; c3;
          complaint_entry_point env self; c5] ->
    contains ("Validation failed:" +:+ nl +:+ diagnostics env self c3 c5) c).
  { intros c Hc. auto using diagnostics_contains with contains. }
  eexists _, _. repeat (split; [reflexivity|]). split; [exact Hall|].
  intros Hm Hr. split.
  - apply contains_append_r, contains_append_r.
    unfold diagnostics, complaint_mergeable. rewrite Hm.
    auto with contains.
  - apply contains_append_r, contains_append_r.
    unfold diagnostics, complaint_entry_point. rewrite Hr.
    auto 10 with contains.
Qed.

Lemma validate_accumulates_witness :
  exists w' msg,
    validate Sample.no_run_env (Sample.job false) Sample.world = (Ok tt, w')
    /\ collection w' = collection Sample.world
    /\ msg = "Validation failed:" +:+ nl +:+ "Submission cannot be merged" +:+ nl
             +:+ "Missing run.py" +:+ nl +:+ "Cannot import run from run.py"
    /\ In (sent msg) (trace w')
    /\ contains msg "Submission cannot be merged" /\ contains msg "Missing run.py".
Proof.
  destruct (validate_accumulates Sample.no_run_env (Sample.job false) Sample.world
              "" "Cannot import run from run.py")
    as (w' & msg & Hrun & Htrace & Hcoll & Hmsg & _ & Hboth);
    [reflexivity | reflexivity | intros (H & _); discriminate H |].
  exists w', msg. split; [exact Hrun|]. split; [exact Hcoll|].
  split; [exact Hmsg|]. split.
  - rewrite Htrace. rewrite !in_app_iff. right. right. right. simpl. auto.
  - apply Hboth; reflexivity.
Defined.

(** C5, as stated, fails in two ways.  Without the package marker the
    import is not attempted: the message has the marker's complaint only,
    although importing [run] would fail.  And a submission that cannot be
    merged whose [run.py] does not parse gets no message at all: the
    [SyntaxError] leaves [validate] and the complaint already gathered is
    lost. *)
Lemma validate_skips_import_check :
  (import_run Sample.no_marker_env
     (module_dir Sample.no_marker_env (Sample.job true)) = Raise ImportError
   /\ validate Sample.no_marker_env (Sample.job true) Sample.world
      = (Ok tt,
         mkWorld (collection Sample.world) (now Sample.world)
           (validate_intro Sample.no_marker_env (Sample.job true)
              ++ [PrinterError None;
                  sent ("Validation failed:" +:+ nl +:+ "Missing __init__.py" +:+ nl);
                  PrinterSuccess])))
  /\ (ismergeable (Sample.job false) = false
      /\ fst (validate Sample.syntax_env (Sample.job false) Sample.world)
         = Raise SyntaxError
      /\ forall msg, ~ In (sent msg)
            (trace (snd (validate Sample.syntax_env (Sample.job false) Sample.world)))).
Proof.
  split; [split; reflexivity|].
  split; [reflexivity|]. split; [reflexivity|].
  intros msg. vm_compute. intros H.
  repeat (destruct H as [H|H]; [discriminate H|]). exact H.
Qed.

(** C6: a validation that does not pass every check, whether it completes
    with a failure message or is cut short by an exception, leaves the
    collection as it was, so the [validated] flag and [validated_at] keep
    their values; a validation that passes sets the flag to true and the
    timestamp to the clock, in the submission's record. *)
Theorem validate_failure_keeps_flag (env : Env) (self : Job) (w w' : World)
    (r : result unit) :
  validate env self w = (r, w') ->
  (~ checks_pass env self -> collection w' = collection w)
  /\ (checks_pass env self ->
      r = Ok tt
      /\ collection w' = update_one (id self) "validated_at" (VInt (now w))
                           (update_one (id self) "validated" (VBool true)
                              (collection w))).
Proof.
  rewrite validate_run. unfold validate_outcome. intros Hrun. split.
  - intros Hfail.
    destruct (complaint_metadata env self) as [c3|e] eqn:H3;
      [|now inversion Hrun].
    destruct (complaint_import env self) as [c5|e] eqn:H5;
      [|now inversion Hrun].
    pose proof (checks_pass_diagnostics env self c3 c5 H3 H5) as Hd.
    destruct (diagnostics env self c3 c5); [|now inversion Hrun].
    exfalso. now apply Hfail, Hd.
  - intros Hpass. apply checks_pass_iff in Hpass. destruct Hpass as (H3 & H5 & Hd).
    rewrite H3, H5, Hd in Hrun. now inversion Hrun.
Qed.

Lemma validate_failure_keeps_flag_witness :
  collection (snd (validate Sample.no_run_env (Sample.job false) Sample.world))
    = collection Sample.world
  /\ find_one 7 (collection (snd (validate Sample.no_run_env (Sample.job false)
                                     Sample.world)))
     = Some Sample.record.
Proof.
  destruct (validate_failure_keeps_flag Sample.no_run_env (Sample.job false)
              Sample.world
              (snd (validate Sample.no_run_env (Sample.job false) Sample.world))
              (fst (validate Sample.no_run_env (Sample.job false) Sample.world)))
    as [Hkeep _].
  - now destruct (validate Sample.no_run_env (Sample.job false) Sample.world).
  - assert (H : ~ checks_pass Sample.no_run_env (Sample.job false))
      by (intros (H & _); discriminate H).
    split; [exact (Hkeep H)|]. rewrite (Hkeep H). reflexivity.
Defined.

(** C9, as the code has it: when the package marker is there and importing
    [run] raises [ImportError], validation fails with "Cannot import run
    from run.py" at the end of its diagnostics and marks nothing; any other
    exception raised by the import leaves [validate] uncaught, before any
    message is sent. *)
Theorem validate_import_error (env : Env) (self : Job) (w : World) (c3 : string)
    (e : exn) :
  complaint_metadata env self = Ok c3 ->
  isfile env (module_dir env self +:+ "__init__.py") = true ->
  import_run env (module_dir env self) = Raise e ->
  (e = ImportError ->
   exists w',
     validate env self w = (Ok tt, w')
     /\ trace w' = trace w ++ validate_intro env self
                     ++ [SysPathAppend (module_dir env self); PrinterError None;
                         sent ("Validation failed:" +:+ nl
                               +:+ diagnostics env self c3 "Cannot import run from run.py");
                         PrinterSuccess]
     /\ collection w' = collection w)
  /\ (e <> ImportError ->
      validate env self w =
        (Raise e, mkWorld (collection w) (now w)
                    (trace w ++ validate_intro env self
                       ++ [SysPathAppend (module_dir env self)]))).
Proof.
  intros H3 Hinit Himp. rewrite validate_run. unfold validate_outcome.
  rewrite H3. unfold complaint_import, import_events. rewrite Hinit, Himp.
  split.
  - intros ->.
    assert (Hne : exists a s, diagnostics env self c3 "Cannot import run from run.py"
                              = String a s).
    { destruct (diagnostics env self c3 "Cannot import run from run.py") eqn:Hd;
        [|eauto].
      apply diagnostics_nil in Hd. destruct Hd as (_ & Hd & _). discriminate Hd. }
    destruct Hne as (a & s & Hd). rewrite Hd.
    eexists. split; [reflexivity|]. split; reflexivity.
  - intros Hne. destruct e; try reflexivity. now contradiction Hne.
Qed.

Lemma validate_import_error_witness :
  exists w',
    validate Sample.no_run_env (Sample.job true) Sample.world = (Ok tt, w')
    /\ In (sent ("Validation failed:" +:+ nl +:+ "Missing run.py" +:+ nl
                 +:+ "Cannot import run from run.py")) (trace w')
    /\ collection w' = collection Sample.world.
Proof.
  destruct (validate_import_error Sample.no_run_env (Sample.job true) Sample.world
              "" ImportError) as [H _]; [reflexivity | reflexivity | reflexivity |].
  destruct (H eq_refl) as (w' & Hrun & Htrace & Hcoll).
  exists w'. split; [exact Hrun|]. split; [|exact Hcoll].
  rewrite Htrace. rewrite !in_app_iff. right. right. simpl. auto.
Defined.

(** C9, as stated, fails: a [run.py] that does not parse makes the import
    raise [SyntaxError], which [validate] does not catch; the exception
    leaves [validate] and no message is sent. *)
Lemma validate_syntax_error_escapes :
  isfile Sample.syntax_env
    (module_dir Sample.syntax_env (Sample.job true) +:+ "__init__.py") = true
  /\ import_run Sample.syntax_env (module_dir Sample.syntax_env (Sample.job true))
     = Raise SyntaxError
  /\ validate Sample.syntax_env (Sample.job true) Sample.world
     = (Raise SyntaxError,
        mkWorld (collection Sample.world) (now Sample.world)
          (validate_intro Sample.syntax_env (Sample.job true)
             ++ [SysPathAppend "/tmp/tmpq3x/submissions/alice/run/"]))
  /\ (forall msg, ~ In (sent msg)
        (trace (snd (validate Sample.syntax_env (Sample.job true) Sample.world)))).
Proof.
  split; [reflexivity|]. split; [reflexivity|]. split; [reflexivity|].
  intros msg. vm_compute. intros H.
  repeat (destruct H as [H|H]; [discriminate H|]). exact H.
Qed.

(** ** Computations that leave the store alone *)

Section ConstRun.

Context {Q : event -> bool}.

Lemma const_ret {A} (a : A) : const_run Q (ret a).
Proof. exists (Ok a), []. split; [reflexivity|]. intros w. unfold ret. rewrite app_nil_r. now destruct w. Qed.

Lemma const_raise {A} (e : exn) : const_run Q (@raise A e).
Proof. exists (Raise e), []. split; [reflexivity|]. intros w. unfold raise. rewrite app_nil_r. now destruct w. Qed.

Lemma const_lift {A} (r : result A) : const_run Q (lift r).
Proof. exists r, []. split; [reflexivity|]. intros w. unfold lift. rewrite app_nil_r. now destruct w. Qed.

Lemma const_emit (ev : event) : Q ev = true -> const_run Q (emit ev).
Proof. intros H. exists (Ok tt), [ev]. split; [simpl; now rewrite H | reflexivity]. Qed.

Lemma const_bind {A B} (c : M A) (k : A -> M B) :
  const_run Q c -> (forall a, const_run Q (k a)) -> const_run Q (bind c k).
Proof.
  intros (r & evs & HQ & Hc) Hk. destruct r as [a|e].
  - destruct (Hk a) as (r' & evs' & HQ' & Hk'). exists r', (evs ++ evs'). split.
    + rewrite forallb_app, HQ, HQ'. reflexivity.
    + intros w. unfold bind. rewrite Hc, Hk'. simpl. now rewrite app_assoc.
  - exists (Raise e), evs. split; [exact HQ|]. intros w. unfold bind. now rewrite Hc.
Qed.

End ConstRun.

Ltac const_run_steps :=
  repeat first
    [ apply const_ret | apply const_raise | apply const_lift
    | apply const_emit; reflexivity
    | apply const_bind; [|intros ?] ].

Lemma post_image_const env self im folder filename :
  const_run dataset_event (post_image env self im folder filename).
Proof. unfold post_image. const_run_steps. Qed.

Lemma load_info_const env dp name : const_run dataset_event (load_info env dp name).
Proof.
  unfold load_info.
  destruct (split_slash dp) as [|b [|f [|s [|x l]]]]; const_run_steps.
Qed.

Lemma process_dataset_const env self run_mod dp name metrics :
  const_run dataset_event (process_dataset env self run_mod dp name metrics).
Proof.
  unfold process_dataset. const_run_steps;
    auto using load_info_const, post_image_const.
Qed.

Lemma process_datasets_const env self run_mod dp names : forall metrics,
  const_run dataset_event (process_datasets env self run_mod dp names metrics).
Proof.
  induction names as [|name rest IH]; intros metrics; simpl.
  - apply const_ret.
  - apply const_bind; [apply process_dataset_const | intros m; apply IH].
Qed.

(** ** Execution, step by step *)

Lemma run_try_except {A B C} (c : M A) (f : A -> M B) (handler : exn -> M B)
    (k : B -> M C) w :
  bind (try_except (bind c f) (fun _ => true) handler) k w
  = match c w with
    | (Ok a, w1) => bind (try_except (f a) (fun _ => true) handler) k w1
    | (Raise e, w1) => bind (handler e) k w1
    end.
Proof.
  unfold bind, try_except.
  destruct (c w) as [[a|e] w1]; reflexivity.
Qed.

Lemma execute_run env self info run_mod spark_home master w :
  SetupOk env self info run_mod spark_home master ->
  execute env self w = execute_outcome env self info run_mod spark_home master w.
Proof.
  intros [(f & Hread & Hjson) Himport (Hhome & Hne) Hthunder (s & Hs & Hmaster)
            Hstart Hadd].
  unfold execute, execute_outcome, printer_status, clone, get_master.
  repeat (rewrite run_bind_bind || rewrite run_bind_emit).
  rewrite run_bind_ret. cbv beta iota zeta. cbn [collection now trace].
  fold (base_dir env self). fold (module_dir env self).
  rewrite run_bind_lift, Hread, run_bind_lift, Hjson, run_bind_emit.
  rewrite run_bind_lift, Himport, Hhome.
  assert (Hh : match spark_home with
               | "" => @raise string (Exception "must assign the environmental variable SPARK_HOME with the location of Spark")
               | _ => ret spark_home
               end = ret spark_home) by (destruct spark_home; [congruence | reflexivity]).
  rewrite Hh, run_bind_ret, !run_bind_emit, run_bind_lift, Hthunder.
  rewrite run_bind_bind, run_bind_lift, Hs, run_bind_ret, <- Hmaster.
  rewrite run_bind_lift, Hstart, run_bind_emit, run_bind_lift, Hadd, run_bind_emit.
  cbn [collection now trace]. rewrite <- !app_assoc. cbn [app].
  fold (execute_intro env self spark_home master).
  rewrite run_try_except.
  unfold datasets, data_path.
  destruct (process_datasets env self run_mod _ _ empty_metrics _) as [[metrics|e] w1].
  - cbv [printer_success update_status send_message printer_status bind try_except
         emit ret get_now get_collection put_collection].
    cbn [collection now trace]. rewrite <- !app_assoc. reflexivity.
  - cbv [printer_error send_message printer_status printer_success bind emit ret].
    cbn [collection now trace]. rewrite <- !app_assoc. reflexivity.
Qed.

(** [execute] returns only when everything before its [try] block went
    through. *)
Lemma execute_ok_setup env self w r w' :
  execute env self w = (Ok r, w') ->
  exists info run_mod spark_home master,
    SetupOk env self info run_mod spark_home master.
Proof.
  unfold execute, printer_status, clone, get_master.
  repeat (rewrite run_bind_bind || rewrite run_bind_emit).
  rewrite run_bind_ret. cbv beta iota zeta. cbn [collection now trace].
  fold (base_dir env self). fold (module_dir env self).
  intros H.
  rewrite run_bind_lift in H.
  destruct (read_file env (base_dir env self +:+ "info.json")) as [f|] eqn:Hread;
    [|discriminate H].
  rewrite run_bind_lift in H.
  destruct (json_loads env f) as [info|] eqn:Hjson; [|discriminate H].
  rewrite run_bind_emit, run_bind_lift in H.
  destruct (import_run env (module_dir env self)) as [run_mod|] eqn:Himport;
    [|discriminate H].
  destruct (getenv env "SPARK_HOME") as [[|a h]|] eqn:Hhome;
    [discriminate H | | discriminate H].
  rewrite run_bind_ret, !run_bind_emit, run_bind_lift in H.
  destruct (import_thunder env) as [[]|] eqn:Hthunder; [|discriminate H].
  rewrite run_bind_bind, run_bind_lift in H.
  destruct (read_file env "/root/spark-ec2/cluster-url") as [s|] eqn:Hs;
    [|discriminate H].
  rewrite run_bind_ret, run_bind_lift in H.
  destruct (thunder_start env (drop_last s) "neurofinder") as [[]|] eqn:Hstart;
    [|discriminate H].
  rewrite run_bind_emit, run_bind_lift in H.
  destruct (add_py_file env) as [[]|] eqn:Hadd; [|discriminate H].
  exists info, run_mod, (String a h), (drop_last s).
  split; eauto.
Qed.


Lemma process_datasets_run env self run_mod :
  exists (r : result Metrics) (evs : list event),
    forallb dataset_event evs = true
    /\ forall w, process_datasets env self run_mod data_path datasets empty_metrics w
                 = (r, mkWorld (collection w) (now w) (trace w ++ evs)).
Proof. apply process_datasets_const. Qed.




(** C7: once [execute] has reached its [try] block, an exception raised
    anywhere in the processing of the data sets (the first or the second,
    loading, the submitted code, the metrics or the publishing) makes it
    return [None] for the metrics, next to the parsed [info]; the
    collection is left as it was, so [executed] is not marked, and the
    message "Execution failed" is sent. *)
Theorem execute_failure_returns_none (env : Env) (self : Job) (w : World)
    (info : json) (run_mod : RunModule) (spark_home master : string) (e : exn) :
  SetupOk env self info run_mod spark_home master ->
  fst (process_datasets env self run_mod data_path datasets empty_metrics w) = Raise e ->
  exists w' evs,
    execute env self w = (Ok (None, info), w')
    /\ collection w' = collection w
    /\ forallb dataset_event evs = true
    /\ trace w' = trace w ++ execute_intro env self spark_home master ++ evs
                    ++ failure_tail e
    /\ In (sent "Execution failed") (trace w')
    /\ ~ In (sent "Execution successful") (failure_tail e).
Proof.
  intros Hsetup Hraise.
  destruct (process_datasets_run env self run_mod) as (r & evs & Hevs & Hrun).
  rewrite Hrun in Hraise. simpl in Hraise. subst r.
  rewrite (execute_run _ _ _ _ _ _ _ Hsetup). unfold execute_outcome.
  rewrite Hrun. cbn [collection now trace].
  eexists _, evs. split; [reflexivity|]. cbn [collection trace].
  split; [reflexivity|]. split; [exact Hevs|].
  rewrite <- !app_assoc. split; [reflexivity|]. split.
  - rewrite !in_app_iff. right. right. right. simpl. auto.
  - simpl. intros [H|[H|[H|[H|[H|[]]]]]]; discriminate H.
Qed.

Lemma sample_setup (load : string -> result Images) (ov1 : list float) :
  SetupOk (Sample.env Sample.all_files (Ok Sample.run_module) load ov1)
    (Sample.job true) Sample.info Sample.run_module "/opt/spark" "spark://master:7077".
Proof.
  split; try reflexivity.
  - eexists. split; reflexivity.
  - split; [reflexivity | discriminate].
  - eexists. split; reflexivity.
Defined.

Lemma execute_failure_returns_none_witness :
  exists w',
    execute Sample.broken_env (Sample.job true) Sample.world
      = (Ok (None, Sample.info), w')
    /\ collection w' = collection Sample.world
    /\ In (S3Put "neurofinder/images/7/00.00/sources.png") (trace w')
    /\ In (sent "Execution failed") (trace w').
Proof.
  destruct (execute_failure_returns_none Sample.broken_env (Sample.job true)
              Sample.world Sample.info Sample.run_module "/opt/spark"
              "spark://master:7077" IOError)
    as (w' & evs & Hrun & Hcoll & _ & Htrace & Hsent & _);
    [apply sample_setup | reflexivity |].
  exists w'. split; [exact Hrun|]. split; [exact Hcoll|]. split; [|exact Hsent].
  assert (Hw : w' = snd (execute Sample.broken_env (Sample.job true) Sample.world))
    by now rewrite Hrun.
  rewrite Hw. vm_compute. tauto.
Defined.





Example execute_success_stops_engine :
  let rw := execute Sample.good_env (Sample.job true) Sample.world in
  count_starts (trace (snd rw)) = 1%nat
  /\ count_stops (trace (snd rw)) = 1%nat
  /\ last (trace (snd rw)) = Some EngineStop
  /\ match fst rw with Ok (Some _, _) => True | _ => False end.
Proof.
  cbv zeta.
  split; [vm_compute; reflexivity|]. split; [vm_compute; reflexivity|].
  split; [vm_compute; reflexivity|]. vm_compute. exact I.
Qed.

(** ** The overall records *)

Lemma fadd_nan_l x : fadd NaN x = NaN.
Proof. reflexivity. Qed.

Lemma fadd_nan_r x : fadd x NaN = NaN.
Proof. now destruct x. Qed.

Lemma sum_from_nan_acc xs : sum_from NaN xs = NaN.
Proof. unfold sum_from. induction xs as [|x xs IH]; simpl; [reflexivity | exact IH]. Qed.

Lemma sum_from_nan acc xs : In NaN xs -> sum_from acc xs = NaN.
Proof.
  unfold sum_from. revert acc.
  induction xs as [|x xs IH]; intros acc; simpl; [tauto|].
  intros [->|H].
  - rewrite fadd_nan_r. apply sum_from_nan_acc.
  - now apply IH.
Qed.

Lemma sum_short_nan xs : In NaN xs -> sum_short xs = NaN.
Proof. apply sum_from_nan. Qed.

Lemma zip_with_nan_l (r ys : list float) :
  (length r <= length ys)%nat -> In NaN r -> In NaN (zip_with fadd r ys).
Proof.
  revert ys. induction r as [|x r IH]; intros [|y ys] Hlen Hin; simpl in *;
    try tauto; try lia.
  destruct Hin as [->|Hin]; [left; apply fadd_nan_l | right; apply IH; [lia | exact Hin]].
Qed.

Lemma zip_with_nan_r (r ys : list float) :
  (length ys <= length r)%nat -> In NaN ys -> In NaN (zip_with fadd r ys).
Proof.
  revert ys. induction r as [|x r IH]; intros [|y ys] Hlen Hin; simpl in *;
    try tauto; try lia.
  destruct Hin as [->|Hin]; [left; apply fadd_nan_r | right; apply IH; [lia | exact Hin]].
Qed.

Lemma in_firstn_skipn {A} (x : A) n (l : list A) :
  In x l -> In x (firstn n l) \/ In x (skipn n l).
Proof. intros H. rewrite <- (firstn_skipn n l) in H. now apply in_app_or in H. Qed.

Lemma add_groups_nan g : forall r xs,
  length r = 8%nat -> (8 * g <= length xs)%nat -> In NaN r \/ In NaN xs ->
  length (fst (add_groups g r xs)) = 8%nat
  /\ (In NaN (fst (add_groups g r xs)) \/ In NaN (snd (add_groups g r xs))).
Proof.
  induction g as [|g IH]; intros r xs Hr Hxs Hnan; simpl; [auto|].
  assert (Hf : length (firstn 8 xs) = 8%nat) by (rewrite length_firstn; lia).
  apply IH.
  - rewrite length_zip_with. lia.
  - rewrite length_skipn. lia.
  - destruct Hnan as [Hnan|Hnan].
    + left. apply zip_with_nan_l; [lia | exact Hnan].
    + destruct (in_firstn_skipn NaN 8 xs Hnan) as [H|H]; [left | now right].
      apply zip_with_nan_r; [lia | exact H].
Qed.

Lemma tree_nan r0 r1 r2 r3 r4 r5 r6 r7 :
  In NaN [r0; r1; r2; r3; r4; r5; r6; r7] ->
  fadd (fadd (fadd r0 r1) (fadd r2 r3)) (fadd (fadd r4 r5) (fadd r6 r7)) = NaN.
Proof.
  cbn [In]. intros [->|[->|[->|[->|[->|[->|[->|[->|[]]]]]]]]];
    rewrite ?fadd_nan_l, ?fadd_nan_r; reflexivity.
Qed.

Lemma sum_block_nan xs : In NaN xs -> sum_block xs = NaN.
Proof.
  intros Hnan. unfold sum_block.
  destruct (Nat.lt_ge_cases (length xs) 8) as [Hshort|Hlong].
  - assert (Hg : (length xs / 8 - 1 = 0)%nat)
      by (rewrite Nat.div_small by exact Hshort; reflexivity).
    rewrite Hg. cbn [add_groups].
    rewrite firstn_all2 by lia.
    destruct xs as [|r0 [|r1 [|r2 [|r3 [|r4 [|r5 [|r6 [|r7 xs]]]]]]]];
      try (now apply sum_short_nan). simpl in Hshort. lia.
  - pose proof (Nat.Div0.mul_div_le (length xs) 8) as Hdiv.
    destruct (add_groups_nan (length xs / 8 - 1) (firstn 8 xs) (skipn 8 xs))
      as [Hlen Hin].
    + rewrite length_firstn. lia.
    + rewrite length_skipn. lia.
    + apply (in_firstn_skipn NaN 8 xs Hnan).
    + destruct (add_groups (length xs / 8 - 1) (firstn 8 xs) (skipn 8 xs))
        as [r rest]. cbn [fst snd] in Hlen, Hin.
      destruct r as [|r0 [|r1 [|r2 [|r3 [|r4 [|r5 [|r6 [|r7 [|r8 r]]]]]]]]];
        try discriminate Hlen.
      destruct Hin as [Hin|Hin].
      * rewrite (tree_nan _ _ _ _ _ _ _ _ Hin). apply sum_from_nan_acc.
      * now apply sum_from_nan.
Qed.

Lemma pairwise_sum_nan fuel : forall xs, In NaN xs -> pairwise_sum fuel xs = NaN.
Proof.
  induction fuel as [|fuel IH]; intros xs Hnan; cbn [pairwise_sum];
    destruct (length xs <? 8)%nat; try (now apply sum_short_nan);
    destruct (length xs <=? 128)%nat; try (now apply sum_block_nan).
  destruct (in_firstn_skipn NaN (length xs / 2 - (length xs / 2) mod 8) xs Hnan)
    as [H|H]; rewrite (IH _ H); [apply fadd_nan_l | apply fadd_nan_r].
Qed.

Lemma fsum_nan xs : In NaN xs -> fsum xs = NaN.
Proof. intros H. unfold fsum. rewrite (pairwise_sum_nan _ _ H). apply fadd_nan_r. Qed.

(** The plain mean propagates a NaN entry. *)
Lemma mean_nan xs : In NaN xs -> mean xs = NaN.
Proof. intros H. unfold mean. now rewrite fsum_nan. Qed.

(** The halvings of the pairwise sum never run out of fuel. *)
Lemma pairwise_sum_fuel f : forall f' xs,
  (length xs <= f)%nat -> (length xs <= f')%nat ->
  pairwise_sum f xs = pairwise_sum f' xs.
Proof.
  induction f as [|f IH]; intros f' xs Hf Hf'.
  - destruct xs; [now destruct f' | simpl in Hf; lia].
  - destruct f' as [|f']; [destruct xs; [reflexivity | simpl in Hf'; lia]|].
    cbn [pairwise_sum].
    destruct (length xs <? 8)%nat eqn:H8; [reflexivity|].
    destruct (length xs <=? 128)%nat eqn:H128; [reflexivity|].
    apply Nat.leb_gt in H128.
    assert (Hhalf : (64 <= length xs / 2)%nat)
      by (apply (Nat.div_le_lower_bound _ 2 64); lia).
    pose proof (Nat.Div0.mod_le (length xs / 2) 8) as Hmod.
    pose proof (Nat.mod_upper_bound (length xs / 2) 8) as Hmod8.
    pose proof (Nat.Div0.mul_div_le (length xs) 2) as Hdiv.
    f_equal; apply IH; rewrite ?length_firstn, ?length_skipn; lia.
Qed.

(** The two entries of an overall record are added left to right. *)
Lemma mean_two a b :
  mean [a; b]
  = fdiv (fadd (S754_zero false) (fadd (fadd (S754_zero true) a) b)) (float_of_Z 2).
Proof. reflexivity. Qed.

(** Eight entries are added in pairs: 1e16 and seven ones give 1e16 + 6
    (left to right every one would be lost to rounding). *)
Example mean_pairwise :
  mean (float_of_Z 10000000000000000 :: repeat (float_of_Z 1) 7)
  = fdiv (float_of_Z 10000000000000006) (float_of_Z 8).
Proof. vm_compute. reflexivity. Qed.

Lemma run_bind_def {A B} (c : M A) (k : A -> M B) w :
  bind c k w = match c w with
               | (Ok a, w') => k a w'
               | (Raise e, w') => (Raise e, w')
               end.
Proof. reflexivity. Qed.

(** A data set that goes through adds one record to each metric, with the
    NaN-skipping mean taken inside the data set for overlap and distance. *)
Lemma process_dataset_ok env self run_mod dp name metrics w metrics' w' :
  process_dataset env self run_mod dp name metrics w = (Ok metrics', w') ->
  exists contributors accuracy ov di count area,
    metrics' = add_dataset name contributors accuracy (nanmean ov) (nanmean di)
                 count area metrics.
Proof.
  unfold process_dataset. intros H.
  repeat first
    [ rewrite run_bind_emit in H
    | rewrite run_bind_lift in H;
      match type of H with
      | match ?r with Ok _ => _ | Raise _ => _ end = _ =>
          destruct r; [|discriminate H]
      end ].
  rewrite run_bind_def in H.
  destruct (load_info env dp name _) as [[blob|e] w1]; [|discriminate H].
  repeat (rewrite run_bind_lift in H;
          match type of H with
          | match ?r with Ok _ => _ | Raise _ => _ end = _ =>
              destruct r; [|discriminate H]
          end).
  rewrite run_bind_def in H.
  destruct (post_image env self _ _ _ _) as [[[]|e] w2]; [|discriminate H].
  injection H as <- _. unfold add_dataset. eauto 10.
Qed.

Lemma process_datasets_ok env self run_mod dp w metrics w' :
  process_datasets env self run_mod dp datasets empty_metrics w = (Ok metrics, w') ->
  exists c0 a0 o0 d0 n0 r0 c1 a1 o1 d1 n1 r1,
    metrics = add_dataset "00.01" c1 a1 o1 d1 n1 r1
                (add_dataset "00.00" c0 a0 o0 d0 n0 r0 empty_metrics).
Proof.
  unfold datasets. simpl. intros H.
  rewrite run_bind_def in H.
  destruct (process_dataset _ _ _ _ "00.00" _ _) as [[m0|e] w0] eqn:H0;
    [|discriminate H].
  rewrite run_bind_def in H.
  destruct (process_dataset _ _ _ _ "00.01" _ _) as [[m1|e] w1] eqn:H1;
    [|discriminate H].
  injection H as <- _.
  apply process_dataset_ok in H0. destruct H0 as (c0 & a0 & ov0 & di0 & n0 & r0 & ->).
  apply process_dataset_ok in H1. destruct H1 as (c1 & a1 & ov1 & di1 & n1 & r1 & ->).
  eauto 15.
Qed.

Lemma dataset_records c0 a0 o0 d0 n0 r0 c1 a1 o1 d1 n1 r1 k :
  In k metric_names ->
  exists x0 x1,
    add_dataset "00.01" c1 a1 o1 d1 n1 r1
      (add_dataset "00.00" c0 a0 o0 d0 n0 r0 empty_metrics) !! k = Some [x0; x1]
    /\ dataset x0 = "00.00" /\ dataset x1 = "00.01".
Proof.
  intros Hk. unfold metric_names in Hk. cbn [In] in Hk.
  destruct Hk as [<-|[<-|[<-|[<-|[<-|[]]]]]];
    lazymatch goal with
    | |- exists x0 x1, ?m !! ?k = _ /\ _ =>
        let v := eval vm_compute in (m !! k) in
        lazymatch v with
        | Some [?y0; ?y1] =>
            exists y0, y1; split; [vm_compute; reflexivity | split; reflexivity]
        end
    end.
Qed.

Lemma is_nan_eq x : is_nan x = true -> x = NaN.
Proof. destruct x; simpl; [discriminate | discriminate | reflexivity | discriminate]. Qed.

(** C1, as the code has it: after a successful run every metric, overlap
    and distance included, holds the records of the two data sets followed
    by one record named "overall" with no contributors, whose value is the
    plain arithmetic mean of the two; a NaN in either data set's value
    therefore makes the overall value NaN, for all five metrics. *)
Theorem overall_is_plain_mean (env : Env) (self : Job) (w w' : World)
    (metrics : Metrics) (info : json) (k : string) :
  execute env self w = (Ok (Some metrics, info), w') ->
  In k metric_names ->
  exists r0 r1,
    metrics !! k = Some [r0; r1; overall_record r0 r1]
    /\ dataset r0 = "00.00" /\ dataset r1 = "00.01"
    /\ value (overall_record r0 r1)
       = NFloat (mean [to_float (value r0); to_float (value r1)])
    /\ (is_nan (to_float (value r0)) = true \/ is_nan (to_float (value r1)) = true ->
        value (overall_record r0 r1) = NFloat NaN).
Proof.
  intros Hrun Hk.
  destruct (execute_ok_setup _ _ _ _ _ Hrun) as (info' & run_mod & h & master & Hsetup).
  rewrite (execute_run _ _ _ _ _ _ _ Hsetup) in Hrun. unfold execute_outcome in Hrun.
  destruct (process_datasets env self run_mod data_path datasets empty_metrics _)
    as [[m|e] w1] eqn:Hpd; [|discriminate Hrun].
  injection Hrun as <- _ _.
  apply process_datasets_ok in Hpd.
  destruct Hpd as (c0 & a0 & o0 & d0 & n0 & x0 & c1 & a1 & o1 & d1 & n1 & x1 & ->).
  destruct (dataset_records c0 a0 o0 d0 n0 x0 c1 a1 o1 d1 n1 x1 k Hk)
    as (r0 & r1 & Hlook & H0 & H1).
  exists r0, r1. rewrite lookup_fmap, Hlook.
  split; [reflexivity|]. split; [exact H0|]. split; [exact H1|].
  split; [reflexivity|].
  intros Hnan. unfold overall_record. cbn [value]. f_equal. apply mean_nan.
  destruct Hnan as [Hn|Hn]; apply is_nan_eq in Hn; rewrite Hn; simpl; auto.
Qed.

Lemma overall_is_plain_mean_witness :
  exists r0 r1,
    Sample.run_metrics Sample.nan_env !! "overlap" = Some [r0; r1; overall_record r0 r1]
    /\ value r0 = NFloat Sample.half /\ value r1 = NFloat NaN
    /\ value (overall_record r0 r1) = NFloat NaN.
Proof.
  destruct (overall_is_plain_mean Sample.nan_env (Sample.job true) Sample.world
              (snd (execute Sample.nan_env (Sample.job true) Sample.world))
              (Sample.run_metrics Sample.nan_env) Sample.info "overlap")
    as (r0 & r1 & Hlook & _ & _ & _ & Hnan);
    [vm_compute; reflexivity | simpl; auto |].
  exists r0, r1. split; [exact Hlook|].
  assert (Hc : Sample.run_metrics Sample.nan_env !! "overlap"
               = Some [mkMetricRecord (NFloat Sample.half) "00.00" "a, b";
                       mkMetricRecord (NFloat NaN) "00.01" "a, b";
                       mkMetricRecord (NFloat NaN) "overall" ""])
    by (vm_compute; reflexivity).
  rewrite Hc in Hlook. injection Hlook as <- <- _.
  split; [reflexivity|]. split; [reflexivity|]. apply Hnan. right. reflexivity.
Defined.

(** C1, as stated, fails for overlap: with the per-data-set overlap values
    0.5 and NaN the overall value the code appends is NaN, not the
    NaN-skipping mean 0.5. *)
Lemma overall_overlap_is_not_nanmean :
  map value (default [] (Sample.run_metrics Sample.nan_env !! "overlap"))
    = [NFloat Sample.half; NFloat NaN; NFloat NaN]
  /\ nanmean [Sample.half; NaN] = Sample.half
  /\ NFloat NaN <> NFloat (nanmean [Sample.half; NaN]).
Proof.
  split; [vm_compute; reflexivity|]. split; [vm_compute; reflexivity|].
  vm_compute. discriminate.
Qed.

(** * Further properties *)

(** ** The store *)

Lemma update_one_length i k v c : length (update_one i k v c) = length c.
Proof.
  induction c as [|d c IH]; simpl; [reflexivity|].
  destruct (matches_id i d); simpl; [reflexivity | now rewrite IH].
Qed.

Lemma matches_id_insert_ne j k v (d : doc) :
  k <> "id" -> matches_id j (<[k := v]> d) = matches_id j d.
Proof. intros Hk. unfold matches_id. now rewrite lookup_insert_ne. Qed.

Lemma count_id_update_one j i k v c :
  k <> "id" -> count_id j (update_one i k v c) = count_id j c.
Proof.
  intros Hk. unfold count_id. induction c as [|d c IH]; simpl; [reflexivity|].
  destruct (matches_id i d) eqn:Hd; simpl.
  - rewrite matches_id_insert_ne by assumption. now destruct (matches_id j d).
  - destruct (matches_id j d); simpl; now rewrite IH.
Qed.

Lemma find_one_update_one_same i k v c :
  k <> "id" -> find_one i (update_one i k v c) = (insert k v) <$> find_one i c.
Proof.
  intros Hk. unfold find_one. induction c as [|d c IH]; simpl; [reflexivity|].
  destruct (matches_id i d) eqn:Hd; simpl.
  - now rewrite matches_id_insert_ne, Hd.
  - now rewrite Hd.
Qed.

Lemma find_one_update_one_other j i k v c :
  j <> i -> k <> "id" -> find_one j (update_one i k v c) = find_one j c.
Proof.
  intros Hj Hk. unfold find_one. induction c as [|d c IH]; simpl; [reflexivity|].
  destruct (matches_id i d) eqn:Hd; simpl.
  - rewrite matches_id_insert_ne by assumption.
    destruct (matches_id j d) eqn:Hjd; [|reflexivity].
    apply matches_id_true in Hd. apply matches_id_true in Hjd. congruence.
  - destruct (matches_id j d); [reflexivity | exact IH].
Qed.

Lemma count_id_app j c1 c2 : count_id j (c1 ++ c2) = (count_id j c1 + count_id j c2)%nat.
Proof. unfold count_id. now rewrite List.filter_app, length_app. Qed.

Lemma count_id_zero j c : find_one j c = None <-> count_id j c = 0%nat.
Proof.
  unfold find_one, count_id. induction c as [|d c IH]; simpl; [tauto|].
  destruct (matches_id j d); simpl; [split; discriminate | exact IH].
Qed.

(** X1: a flag written by [update_status] reads back as true through
    [check_status], with [status + "_at"] reading the clock of the write;
    every other field of the record keeps its value; a later call moves
    the timestamp to the new clock and leaves the flag true; and after
    [clear_status] the flag reads back as false. *)
Theorem status_round_trip (self : Job) (status : string) (w : World) (entry : doc)
    (t2 : Z) :
  find_one (id self) (collection w) = Some entry ->
  status <> "id" ->
  let w1 := snd (update_status self status w) in
  let w2 := snd (update_status self status (at_time t2 w1)) in
  let w3 := snd (clear_status self status w1) in
  check_status self status w1 = (Ok (VBool true), w1)
  /\ check_status self (status +:+ "_at") w1 = (Ok (VInt (now w)), w1)
  /\ (forall k, k <> status -> k <> status +:+ "_at" ->
      fst (check_status self k w1) = fst (check_status self k w))
  /\ check_status self status w2 = (Ok (VBool true), w2)
  /\ check_status self (status +:+ "_at") w2 = (Ok (VInt t2), w2)
  /\ check_status self status w3 = (Ok (VBool false), w3).
Proof.
  intros Hfind Hstatus w1 w2 w3. subst w1 w2 w3.
  rewrite !update_status_run, !clear_status_run.
  unfold at_time, check_status, bind, get_collection, entry_getitem.
  cbn [collection now trace fst snd].
  rewrite !find_one_update_one_same by (assumption || apply flag_at_not_id).
  rewrite Hfind. cbn [fmap option_fmap option_map].
  assert (Hne : status <> status +:+ "_at").
  { intros H. symmetry in H. now apply flag_at_neq in H. }
  repeat split.
  - now rewrite lookup_insert_ne, lookup_insert_eq by congruence.
  - now rewrite lookup_insert_eq.
  - intros k Hk1 Hk2. rewrite !lookup_insert_ne by congruence.
    now destruct (entry !! k).
  - now rewrite lookup_insert_ne, lookup_insert_eq by congruence.
  - now rewrite lookup_insert_eq.
  - now rewrite lookup_insert_eq.
Qed.

Lemma status_round_trip_witness :
  check_status (Sample.job true) "executed"
    (snd (update_status (Sample.job true) "executed" Sample.world))
  = (Ok (VBool true), snd (update_status (Sample.job true) "executed" Sample.world))
  /\ fst (check_status (Sample.job true) "executed_at"
            (snd (update_status (Sample.job true) "executed" Sample.world)))
     = Ok (VInt 1433170000)
  /\ fst (check_status (Sample.job true) "executed"
            (snd (clear_status (Sample.job true) "executed"
                    (snd (update_status (Sample.job true) "executed" Sample.world)))))
     = Ok (VBool false).
Proof.
  destruct (status_round_trip (Sample.job true) "executed" Sample.world Sample.record 0)
    as (H1 & H2 & _ & _ & _ & H3); [reflexivity | discriminate |].
  split; [exact H1|]. split; [exact (f_equal fst H2) | exact (f_equal fst H3)].
Defined.

(** X2: [check_status] on a submission with no record raises [TypeError]
    (the entry is [None]); with a record that lacks the field it raises
    [KeyError] for that field; in both cases, as when it returns, the
    world is left as it was. *)
Theorem check_status_errors (self : Job) (status : string) (w : World) :
  (find_one (id self) (collection w) = None ->
   check_status self status w = (Raise TypeError, w))
  /\ (forall entry, find_one (id self) (collection w) = Some entry ->
      entry !! status = None ->
      check_status self status w = (Raise (KeyError status), w))
  /\ snd (check_status self status w) = w.
Proof.
  unfold check_status, bind, get_collection, entry_getitem.
  cbn [collection]. repeat split.
  - now intros ->.
  - intros entry -> Hk. now rewrite Hk.
  - destruct (find_one (id self) (collection w)) as [d|]; [|reflexivity].
    now destruct (d !! status).
Qed.

(** X3: [isrecent] on a submission with no record raises [TypeError], and
    on a record without [last_checked] raises [KeyError]; neither writes
    anything.  So [isentry] has to come first. *)
Theorem isrecent_errors (env : Env) (self : Job) (w : World) :
  (find_one (id self) (collection w) = None ->
   isrecent env self w = (Raise TypeError, w))
  /\ (forall entry, find_one (id self) (collection w) = Some entry ->
      entry !! "last_checked" = None ->
      isrecent env self w = (Raise (KeyError "last_checked"), w))
  /\ snd (isrecent env self w) = w.
Proof.
  unfold isrecent, bind, get_collection, entry_getitem, lt_int, ret.
  cbn [collection]. repeat split.
  - now intros ->.
  - intros entry -> Hk. now rewrite Hk.
  - destruct (find_one (id self) (collection w)) as [d|]; [|reflexivity].
    destruct (d !! "last_checked") as [[b|z|s]|]; try reflexivity.
    + now destruct (Z.b2z b <? _).
    + now destruct (z <? _).
Qed.

(** X4: the writes of the store never create a record: on a submission
    with no record [clear_status], [update_status] and
    [update_last_checked] return normally and leave the whole world as it
    was. *)
Theorem writes_without_record (self : Job) (status : string) (w : World) :
  find_one (id self) (collection w) = None ->
  clear_status self status w = (Ok tt, w)
  /\ update_status self status w = (Ok tt, w)
  /\ update_last_checked self w = (Ok tt, w).
Proof.
  intros Hnone. rewrite clear_status_run, update_status_run.
  unfold update_last_checked, bind, get_now, get_collection, put_collection.
  cbn [collection now trace].
  rewrite !update_one_None by (rewrite ?update_one_None; assumption).
  destruct w; repeat split; reflexivity.
Qed.

Lemma writes_without_record_witness :
  update_status (Sample.job true) "validated" Sample.fresh_world
  = (Ok tt, Sample.fresh_world).
Proof.
  destruct (writes_without_record (Sample.job true) "validated" Sample.fresh_world)
    as (_ & H & _); [reflexivity | exact H].
Defined.

(** ** One record per submission *)

Lemma update_last_checked_run self w :
  update_last_checked self w =
    (Ok tt, mkWorld (update_one (id self) "last_checked" (VInt (now w)) (collection w))
              (now w) (trace w)).
Proof. reflexivity. Qed.

Lemma default_payload_matches self j :
  matches_id j (default_payload self) = bool_decide (j = id self).
Proof.
  unfold matches_id. rewrite default_payload_id.
  destruct (decide (j = id self)) as [->|Hne].
  - now rewrite !bool_decide_eq_true_2.
  - rewrite !bool_decide_eq_false_2; [reflexivity | assumption | congruence].
Qed.

Lemma find_one_app j c1 c2 :
  find_one j (c1 ++ c2)
  = match find_one j c1 with Some d => Some d | None => find_one j c2 end.
Proof.
  unfold find_one. induction c1 as [|d c1 IH]; simpl; [reflexivity|].
  now destruct (matches_id j d).
Qed.

(** X5: [isentry] keeps the collection at one record per submission: when
    no id has more than one record before the call, none has after it, the
    job's own id has exactly one, and the count of every other id is what
    it was. *)
Theorem isentry_one_record_per_id (self : Job) (w : World) :
  (forall j, (count_id j (collection w) <= 1)%nat) ->
  let c' := collection (snd (isentry self w)) in
  count_id (id self) c' = 1%nat
  /\ (forall j, j <> id self -> count_id j c' = count_id j (collection w))
  /\ (forall j, (count_id j c' <= 1)%nat).
Proof.
  intros Huniq c'. subst c'.
  destruct (find_one (id self) (collection w)) as [d|] eqn:Hfind.
  - rewrite (isentry_present _ _ _ Hfind). cbn [snd].
    assert (Hpos : count_id (id self) (collection w) <> 0%nat).
    { intros H. apply count_id_zero in H. congruence. }
    pose proof (Huniq (id self)). split; [lia|]. split; [reflexivity | exact Huniq].
  - rewrite (isentry_fresh _ _ Hfind). cbn [snd collection].
    assert (Hcount : forall j, count_id j (collection w ++ [default_payload self])
                      = (count_id j (collection w)
                         + if bool_decide (j = id self) then 1 else 0)%nat).
    { intros j. rewrite count_id_app. f_equal. unfold count_id. simpl.
      rewrite default_payload_matches. now destruct (bool_decide (j = id self)). }
    apply count_id_zero in Hfind. repeat split.
    + rewrite Hcount, Hfind, bool_decide_eq_true_2; reflexivity.
    + intros j Hj. rewrite Hcount, bool_decide_eq_false_2 by assumption. lia.
    + intros j. rewrite Hcount. destruct (decide (j = id self)) as [->|Hj].
      * rewrite Hfind, bool_decide_eq_true_2; [lia | reflexivity].
      * rewrite bool_decide_eq_false_2 by assumption. pose proof (Huniq j). lia.
Qed.

Lemma isentry_one_record_per_id_witness :
  count_id 7 (collection (snd (isentry (Sample.job true) Sample.fresh_world))) = 1%nat
  /\ count_id 8 (collection (snd (isentry (Sample.job true) Sample.fresh_world))) = 1%nat.
Proof.
  destruct (isentry_one_record_per_id (Sample.job true) Sample.fresh_world)
    as (H7 & H8 & _).
  - intros j. unfold count_id, Sample.fresh_world. simpl.
    destruct (matches_id j Sample.other_record); simpl; lia.
  - split; [exact H7|]. rewrite (H8 8); [reflexivity | discriminate].
Defined.

(** X6: the flag and timestamp writes ([clear_status], [update_status] for
    a field other than ["id"], and [update_last_checked]) neither add nor
    drop a record: the collection keeps its length and every id keeps its
    number of records. *)
Theorem writes_keep_records (self : Job) (status : string) (w : World) :
  status <> "id" ->
  keeps_records (collection w) (collection (snd (clear_status self status w)))
  /\ keeps_records (collection w) (collection (snd (update_status self status w)))
  /\ keeps_records (collection w) (collection (snd (update_last_checked self w))).
Proof.
  intros Hstatus.
  rewrite clear_status_run, update_status_run, update_last_checked_run.
  cbn [snd collection]. unfold keeps_records.
  repeat split; rewrite ?update_one_length; try reflexivity; intros j;
    rewrite !count_id_update_one; auto using flag_at_not_id; discriminate.
Qed.

Lemma writes_keep_records_witness :
  keeps_records (collection Sample.world)
    (collection (snd (update_status (Sample.job true) "validated" Sample.world))).
Proof.
  destruct (writes_keep_records (Sample.job true) "validated" Sample.world)
    as (_ & H & _); [discriminate | exact H].
Defined.

(** X7: what a job writes stays with its own submission: after [isentry],
    [clear_status], [update_status] (for a field other than ["id"]) or
    [update_last_checked], the record found under any other id is the one
    found before. *)
Theorem other_records_untouched (self : Job) (status : string) (w : World) (j : Z) :
  j <> id self ->
  status <> "id" ->
  find_one j (collection (snd (isentry self w))) = find_one j (collection w)
  /\ find_one j (collection (snd (clear_status self status w))) = find_one j (collection w)
  /\ find_one j (collection (snd (update_status self status w))) = find_one j (collection w)
  /\ find_one j (collection (snd (update_last_checked self w))) = find_one j (collection w).
Proof.
  intros Hj Hstatus. split.
  - destruct (find_one (id self) (collection w)) as [d|] eqn:Hfind.
    + now rewrite (isentry_present _ _ _ Hfind).
    + rewrite (isentry_fresh _ _ Hfind). cbn [snd collection].
      rewrite find_one_app.
      destruct (find_one j (collection w)); [reflexivity|].
      unfold find_one. simpl. rewrite default_payload_matches.
      now rewrite bool_decide_eq_false_2.
  - rewrite clear_status_run, update_status_run, update_last_checked_run.
    cbn [snd collection].
    rewrite !find_one_update_one_other;
      auto using flag_at_not_id; discriminate.
Qed.

Lemma other_records_untouched_witness :
  find_one 8 (collection (snd (update_status (Sample.job true) "executed" Sample.world)))
  = Some Sample.other_record.
Proof.
  destruct (other_records_untouched (Sample.job true) "executed" Sample.world 8)
    as (_ & _ & H & _); [discriminate | discriminate |].
  rewrite H. reflexivity.
Defined.

(** X8: how the store operations line up with the staleness check.  Right
    after [isentry] has filed a new submission, [isrecent] answers whether
    the submission's update time is after the epoch, so a new submission
    with a positive update time is always examined; right after
    [update_last_checked], [isrecent] answers whether the update time is
    after the clock of that call, so a submission not updated since is not
    examined again. *)
Theorem isrecent_after_store_writes (env : Env) (self : Job) (w : World) :
  let updated_at := mktime env (pr_updated_at (pull_req self)) in
  (find_one (id self) (collection w) = None ->
   fst (isrecent env self (snd (isentry self w))) = Ok (0 <? updated_at))
  /\ (forall entry, find_one (id self) (collection w) = Some entry ->
      fst (isrecent env self (snd (update_last_checked self w)))
      = Ok (now w <? updated_at)).
Proof.
  intros updated_at. subst updated_at. split.
  - intros Hnone. rewrite (isentry_fresh _ _ Hnone). cbn [snd].
    unfold isrecent, bind, get_collection, entry_getitem, lt_int, ret.
    cbn [collection]. rewrite (find_one_inserted _ _ Hnone).
    change (default_payload self !! "last_checked") with (Some (VInt 0)).
    cbv beta iota. now destruct (0 <? _).
  - intros entry Hfind. rewrite update_last_checked_run. cbn [snd].
    unfold isrecent, bind, get_collection, entry_getitem, lt_int, ret.
    cbn [collection]. rewrite find_one_update_one_same by discriminate.
    rewrite Hfind. cbn [fmap option_fmap option_map]. rewrite lookup_insert_eq.
    cbv beta iota. now destruct (now w <? _).
Qed.

Lemma isrecent_after_store_writes_witness :
  fst (isrecent Sample.good_env (Sample.job true)
         (snd (isentry (Sample.job true) Sample.fresh_world))) = Ok true
  /\ fst (isrecent Sample.good_env (Sample.job true)
            (snd (update_last_checked (Sample.job true) Sample.world))) = Ok false.
Proof.
  destruct (isrecent_after_store_writes Sample.good_env (Sample.job true)
              Sample.fresh_world) as [H1 _].
  destruct (isrecent_after_store_writes Sample.good_env (Sample.job true)
              Sample.world) as [_ H2].
  split; [exact (H1 eq_refl) | exact (H2 Sample.record eq_refl)].
Defined.

(** ** What every run keeps *)

Lemma keeps_records_refl c : keeps_records c c.
Proof. split; reflexivity. Qed.

Lemma keeps_records_trans c1 c2 c3 :
  keeps_records c1 c2 -> keeps_records c2 c3 -> keeps_records c1 c3.
Proof.
  intros [Hl1 Hc1] [Hl2 Hc2]. split; [congruence|].
  intros j. now rewrite Hc2, Hc1.
Qed.

Section RunInv.

Variable Q : event -> bool.

Local Abbreviation inv := (run_inv Q keeps_records).

Lemma inv_same {A} (c : M A) : (forall w, snd (c w) = w) -> inv c.
Proof.
  intros Hc w r w' Hrun. pose proof (Hc w) as Hw. rewrite Hrun in Hw. simpl in Hw.
  subst w'. split; [apply keeps_records_refl|]. split; [reflexivity|].
  exists []. now rewrite app_nil_r.
Qed.

Lemma inv_ret {A} (a : A) : inv (ret a).
Proof. now apply inv_same. Qed.

Lemma inv_raise {A} (e : exn) : inv (@raise A e).
Proof. now apply inv_same. Qed.

Lemma inv_lift {A} (r : result A) : inv (lift r).
Proof. now apply inv_same. Qed.

Lemma inv_emit (ev : event) : Q ev = true -> inv (emit ev).
Proof.
  intros HQ w r w' [= <- <-]. cbn [collection now trace].
  split; [apply keeps_records_refl|]. split; [reflexivity|].
  exists [ev]. split; [reflexivity|]. simpl. now rewrite HQ.
Qed.

Lemma inv_seq (w1 w2 w3 : World) :
  (keeps_records (collection w1) (collection w2) /\ now w2 = now w1
   /\ exists new, trace w2 = trace w1 ++ new /\ forallb Q new = true) ->
  (keeps_records (collection w2) (collection w3) /\ now w3 = now w2
   /\ exists new, trace w3 = trace w2 ++ new /\ forallb Q new = true) ->
  keeps_records (collection w1) (collection w3) /\ now w3 = now w1
  /\ exists new, trace w3 = trace w1 ++ new /\ forallb Q new = true.
Proof.
  intros (HR1 & Hn1 & new1 & Ht1 & HQ1) (HR2 & Hn2 & new2 & Ht2 & HQ2).
  split; [eapply keeps_records_trans; eassumption|]. split; [congruence|].
  exists (new1 ++ new2). split.
  - now rewrite Ht2, Ht1, app_assoc.
  - now rewrite forallb_app, HQ1, HQ2.
Qed.

Lemma inv_bind {A B} (c : M A) (k : A -> M B) :
  inv c -> (forall a, inv (k a)) -> inv (bind c k).
Proof.
  intros Hc Hk w r w' Hrun. unfold bind in Hrun.
  destruct (c w) as [[a|e] w1] eqn:Hcw.
  - eapply inv_seq; [exact (Hc _ _ _ Hcw) | exact (Hk _ _ _ _ Hrun)].
  - injection Hrun as <- <-. exact (Hc _ _ _ Hcw).
Qed.

Lemma inv_try_except {A} (body : M A) handles (handler : exn -> M A) :
  inv body -> (forall e, inv (handler e)) -> inv (try_except body handles handler).
Proof.
  intros Hb Hh w r w' Hrun. unfold try_except in Hrun.
  destruct (body w) as [[a|e] w1] eqn:Hbw.
  - injection Hrun as <- <-. exact (Hb _ _ _ Hbw).
  - destruct (handles e).
    + eapply inv_seq; [exact (Hb _ _ _ Hbw) | exact (Hh _ _ _ _ Hrun)].
    + injection Hrun as <- <-. exact (Hb _ _ _ Hbw).
Qed.

Lemma inv_update_status self status : status <> "id" -> inv (update_status self status).
Proof.
  intros Hstatus w r w'. rewrite update_status_run. intros [= <- <-].
  cbn [collection now trace].
  split.
  - split; [now rewrite !update_one_length|].
    intros j. rewrite !count_id_update_one; auto using flag_at_not_id.
  - split; [reflexivity|]. exists []. now rewrite app_nil_r.
Qed.

End RunInv.

Ltac inv_steps :=
  repeat first
    [ apply inv_ret | apply inv_raise | apply inv_lift
    | apply inv_emit; reflexivity
    | apply inv_update_status; discriminate
    | progress cbv beta iota zeta
    | apply inv_bind; [|intros ?]
    | apply inv_try_except; [|intros ?]
    | match goal with
      | |- run_inv _ _ (if ?b then _ else _) => destruct b
      | |- run_inv _ _ (match ?x with _ => _ end) => destruct x
      end ].

Lemma inv_send_message Q msg :
  Q (sent msg) = true -> Q PrinterSuccess = true ->
  run_inv Q keeps_records (send_message msg).
Proof.
  intros H1 H2. unfold send_message, printer_status, printer_success.
  apply inv_bind; [now apply inv_emit | intros _].
  apply inv_bind; [apply inv_ret | intros _]. now apply inv_emit.
Qed.

Lemma inv_clone Q env self :
  (forall argv, Q (Subprocess argv) = true) -> (forall d, Q (Chdir d) = true) ->
  run_inv Q keeps_records (clone env self).
Proof. intros H1 H2. unfold clone. inv_steps; auto using inv_emit. Qed.

Lemma inv_validate Q env self :
  (forall ev, is_issue_comment ev = false -> is_engine_or_s3 ev = false -> Q ev = true) ->
  run_inv Q keeps_records (validate env self).
Proof.
  intros HQ. unfold validate, printer_status, printer_success, printer_error.
  apply inv_bind; [apply inv_emit; now apply HQ | intros _].
  apply inv_bind; [apply inv_clone; intros; now apply HQ | intros [base module]].
  inv_steps;
    solve [ apply inv_emit; now apply HQ
          | apply inv_send_message; now apply HQ ].
Qed.

Section RunInvExecute.

Variable Q : event -> bool.
Hypothesis HQ : forall ev, is_issue_comment ev = false -> Q ev = true.

Variable env : Env.
Variable self : Job.

Lemma inv_post_image im folder filename :
  run_inv Q keeps_records (post_image env self im folder filename).
Proof. unfold post_image. inv_steps. apply inv_emit. now apply HQ. Qed.

Lemma inv_load_info dp name : run_inv Q keeps_records (load_info env dp name).
Proof.
  unfold load_info.
  destruct (split_slash dp) as [|b [|f [|s [|x l]]]]; inv_steps.
Qed.

Lemma inv_process_dataset run_mod dp name metrics :
  run_inv Q keeps_records (process_dataset env self run_mod dp name metrics).
Proof.
  unfold process_dataset.
  repeat first
    [ apply inv_lift | apply inv_ret | apply inv_load_info | apply inv_post_image
    | apply inv_emit; now apply HQ
    | progress cbv beta zeta
    | apply inv_bind; [|intros ?] ].
Qed.

Lemma inv_process_datasets run_mod dp names : forall metrics,
  run_inv Q keeps_records (process_datasets env self run_mod dp names metrics).
Proof.
  induction names as [|name rest IH]; intros metrics; simpl.
  - apply inv_ret.
  - apply inv_bind; [apply inv_process_dataset | intros m; apply IH].
Qed.

Lemma inv_execute : run_inv Q keeps_records (execute env self).
Proof.
  unfold execute, printer_status, printer_success, printer_error, get_master.
  apply inv_bind; [apply inv_emit; now apply HQ | intros _].
  apply inv_bind; [apply inv_clone; intros; now apply HQ | intros [base module]].
  repeat first
    [ apply inv_lift | apply inv_ret | apply inv_raise
    | apply inv_process_datasets
    | apply inv_update_status; discriminate
    | apply inv_send_message; now apply HQ
    | apply inv_emit; now apply HQ
    | progress cbv beta iota zeta
    | apply inv_bind; [|intros ?]
    | apply inv_try_except; [|intros ?]
    | match goal with
      | |- run_inv _ _ (match ?x with _ => _ end) => destruct x
      end ].
Qed.

End RunInvExecute.

Lemma run_inv_pair {A} Q R (c : M A) w :
  run_inv Q R c ->
  R (collection w) (collection (snd (c w)))
  /\ now (snd (c w)) = now w
  /\ exists new, trace (snd (c w)) = trace w ++ new /\ forallb Q new = true.
Proof. intros H. apply (H w (fst (c w))). now destruct (c w). Qed.

Lemma forallb_not_in (Q : event -> bool) new ev :
  forallb Q new = true -> Q ev = false -> ~ In ev new.
Proof.
  intros Hall Hev Hin. rewrite forallb_forall in Hall. apply Hall in Hin. congruence.
Qed.

(** X9: the notifier is switched off: no run of [send_message], of
    [validate] or of [execute], however it ends, posts a comment on the
    pull request. *)
Theorem never_posts_comment (env : Env) (self : Job) (w : World) (msg : string) :
  (exists new, trace (snd (send_message msg w)) = trace w ++ new
               /\ forall text, ~ In (IssueComment text) new)
  /\ (exists new, trace (snd (validate env self w)) = trace w ++ new
                  /\ forall text, ~ In (IssueComment text) new)
  /\ (exists new, trace (snd (execute env self w)) = trace w ++ new
                  /\ forall text, ~ In (IssueComment text) new).
Proof.
  assert (HQ : forall ev, is_issue_comment ev = false -> not_issue_comment ev = true)
    by (intros ev H; unfold not_issue_comment; now rewrite H).
  split; [|split].
  - destruct (run_inv_pair not_issue_comment keeps_records (send_message msg) w)
      as (_ & _ & new & Ht & Hall); [now apply inv_send_message|].
    exists new. split; [exact Ht|]. intros text.
    now apply (forallb_not_in not_issue_comment).
  - destruct (run_inv_pair not_issue_comment keeps_records (validate env self) w)
      as (_ & _ & new & Ht & Hall); [apply inv_validate; intros; now apply HQ|].
    exists new. split; [exact Ht|]. intros text.
    now apply (forallb_not_in not_issue_comment).
  - destruct (run_inv_pair not_issue_comment keeps_records (execute env self) w)
      as (_ & _ & new & Ht & Hall); [now apply inv_execute|].
    exists new. split; [exact Ht|]. intros text.
    now apply (forallb_not_in not_issue_comment).
Qed.

(** X10: validation works on the clone only: no run of [validate], however
    it ends, starts or stops the engine session, loads a data set or
    writes to S3. *)
Theorem validate_leaves_engine_alone (env : Env) (self : Job) (w : World) :
  exists new, trace (snd (validate env self w)) = trace w ++ new
              /\ forall ev, In ev new -> is_engine_or_s3 ev = false.
Proof.
  destruct (run_inv_pair not_engine_or_s3 keeps_records (validate env self) w)
    as (_ & _ & new & Ht & Hall).
  - apply inv_validate. intros ev _ H. unfold not_engine_or_s3. now rewrite H.
  - exists new. split; [exact Ht|]. intros ev Hin.
    rewrite forallb_forall in Hall. apply Hall in Hin.
    unfold not_engine_or_s3 in Hin. now destruct (is_engine_or_s3 ev).
Qed.

(** X11: a record, once filed, stays: no run of [validate] or of
    [execute], however it ends, adds or drops a record; the collection
    keeps its length and every id its number of records. *)
Theorem runs_keep_records (env : Env) (self : Job) (w : World) :
  keeps_records (collection w) (collection (snd (validate env self w)))
  /\ keeps_records (collection w) (collection (snd (execute env self w))).
Proof.
  split.
  - apply (run_inv_pair (fun _ => true) keeps_records (validate env self) w).
    apply inv_validate. reflexivity.
  - apply (run_inv_pair (fun _ => true) keeps_records (execute env self) w).
    apply inv_execute. reflexivity.
Qed.

(** ** Execution that does not reach the data sets *)

Lemma sent_not_executing msg text :
  sent msg <> PrinterStatus ("Executing pull request " +:+ text).
Proof. unfold sent. intros H. injection H as H. discriminate H. Qed.

(** The events [execute] has added when an exception leaves it: a prefix of
    its setup calls. *)
Lemma quiet_prefix (text : string) (rest : list event) :
  forallb (fun ev => match ev with
                     | Subprocess _ | Chdir _ | SysPathAppend _ | EngineStart _ _ => true
                     | _ => false
                     end) rest = true ->
  (count_starts rest <= 1)%nat ->
  let new := PrinterStatus ("Executing pull request " +:+ text) :: rest in
  count_stops new = 0%nat
  /\ (count_starts new <= 1)%nat
  /\ forall msg, ~ In (sent msg) new.
Proof.
  intros Hrest Hstarts new. subst new. rewrite forallb_forall in Hrest.
  split; [|split].
  - unfold count_stops. simpl. apply length_zero_iff_nil.
    destruct (List.filter is_stop rest) as [|ev l] eqn:Hf; [reflexivity|].
    assert (Hin : In ev (List.filter is_stop rest)) by (rewrite Hf; now left).
    apply filter_In in Hin. destruct Hin as [Hin Hstop].
    apply Hrest in Hin. now destruct ev.
  - exact Hstarts.
  - intros msg [H|H].
    + symmetry in H. now apply sent_not_executing in H.
    + apply Hrest in H. discriminate H.
Qed.

Ltac quiet_done Hrun :=
  inversion Hrun; subst; cbn [collection trace]; split; [reflexivity|];
  rewrite <- ?app_assoc; cbn [app];
  eexists; split; [reflexivity|]; apply quiet_prefix; [reflexivity | cbv; lia].

(** X12: an exception that leaves [execute] leaves nothing behind in the
    store and nothing said: the collection is as it was, no message was
    sent and the engine session, started at most once, was not
    stopped. *)
Theorem execute_raise_is_quiet (env : Env) (self : Job) (w w' : World) (e : exn) :
  execute env self w = (Raise e, w') ->
  collection w' = collection w
  /\ exists new,
       trace w' = trace w ++ new
       /\ count_stops new = 0%nat
       /\ (count_starts new <= 1)%nat
       /\ forall msg, ~ In (sent msg) new.
Proof.
  intros H.
  destruct (execute env self w) as [r0 w0] eqn:Hrun0. injection H as -> ->.
  pose proof Hrun0 as Hrun.
  unfold execute, printer_status, clone, get_master in Hrun.
  repeat (rewrite run_bind_bind in Hrun || rewrite run_bind_emit in Hrun).
  rewrite run_bind_ret in Hrun. cbv beta iota zeta in Hrun.
  cbn [collection now trace] in Hrun.
  fold (base_dir env self) in Hrun. fold (module_dir env self) in Hrun.
  rewrite <- !app_assoc in Hrun. cbn [app] in Hrun.
  rewrite run_bind_lift in Hrun.
  destruct (read_file env (base_dir env self +:+ "info.json")) as [f|e1] eqn:Hread;
    [|quiet_done Hrun].
  rewrite run_bind_lift in Hrun.
  destruct (json_loads env f) as [info|e1] eqn:Hjson; [|quiet_done Hrun].
  rewrite run_bind_emit, run_bind_lift in Hrun. cbn [collection now trace] in Hrun.
  destruct (import_run env (module_dir env self)) as [run_mod|e1] eqn:Himport;
    [|quiet_done Hrun].
  destruct (getenv env "SPARK_HOME") as [[|a h]|] eqn:Hhome;
    [quiet_done Hrun | | quiet_done Hrun].
  rewrite run_bind_ret, !run_bind_emit, run_bind_lift in Hrun.
  cbn [collection now trace] in Hrun.
  destruct (import_thunder env) as [[]|e1] eqn:Hthunder; [|quiet_done Hrun].
  rewrite run_bind_bind, run_bind_lift in Hrun.
  destruct (read_file env "/root/spark-ec2/cluster-url") as [s|e1] eqn:Hs;
    [|quiet_done Hrun].
  rewrite run_bind_ret, run_bind_lift in Hrun.
  destruct (thunder_start env (drop_last s) "neurofinder") as [[]|e1] eqn:Hstart;
    [|quiet_done Hrun].
  rewrite run_bind_emit, run_bind_lift in Hrun. cbn [collection now trace] in Hrun.
  destruct (add_py_file env) as [[]|e1] eqn:Hadd; [|quiet_done Hrun].
  exfalso.
  assert (Hsetup : SetupOk env self info run_mod (String a h) (drop_last s)).
  { split; eauto. }
  rewrite (execute_run _ _ _ _ _ _ w Hsetup) in Hrun0. unfold execute_outcome in Hrun0.
  destruct (process_datasets env self run_mod data_path datasets empty_metrics _)
    as [[m|e1] w1]; discriminate Hrun0.
Qed.

Lemma execute_raise_is_quiet_witness :
  fst (execute Sample.syntax_env (Sample.job true) Sample.world) = Raise SyntaxError
  /\ collection (snd (execute Sample.syntax_env (Sample.job true) Sample.world))
     = collection Sample.world.
Proof.
  split; [reflexivity|].
  apply (execute_raise_is_quiet Sample.syntax_env (Sample.job true) Sample.world
           (snd (execute Sample.syntax_env (Sample.job true) Sample.world)) SyntaxError).
  reflexivity.
Defined.

Ltac run_setup_steps :=
  unfold execute, printer_status, clone, get_master;
  repeat (rewrite run_bind_bind || rewrite run_bind_emit);
  rewrite run_bind_ret; cbv beta iota zeta; cbn [collection now trace];
  repeat match goal with
         | H : ?r = _ |- context [lift ?r] => rewrite H
         | H : ?r = _ |- context [match ?r with _ => _ end] => rewrite H
         | |- _ => rewrite run_bind_lift
         | |- _ => rewrite run_bind_emit
         | |- _ => rewrite run_bind_ret
         | |- _ => rewrite run_bind_bind
         | |- _ => progress cbv beta iota
         end;
  cbn [collection now trace].

(** X13: [SPARK_HOME] is looked up only after the clone, the metadata and
    the import of the submitted code; when it is unset or empty [execute]
    raises the exception that asks for it, the engine session is not
    started, no message is sent and the collection is as it was. *)
Theorem execute_requires_spark_home (env : Env) (self : Job) (w : World)
    (f : string) (info : json) (run_mod : RunModule) :
  read_file env (base_dir env self +:+ "info.json") = Ok f ->
  json_loads env f = Ok info ->
  import_run env (module_dir env self) = Ok run_mod ->
  getenv env "SPARK_HOME" = None \/ getenv env "SPARK_HOME" = Some "" ->
  exists w',
    execute env self w
    = (Raise (Exception "must assign the environmental variable SPARK_HOME with the location of Spark"),
       w')
    /\ collection w' = collection w
    /\ trace w' = trace w
         ++ [PrinterStatus ("Executing pull request " +:+ str_of_int (id self)
                            +:+ " from user " +:+ login self);
             Subprocess ["git"; "clone"; url self; mkdtemp env];
             Chdir (mkdtemp env);
             Subprocess ["git"; "checkout"; "-b"; branch self; "origin/" +:+ branch self];
             SysPathAppend (module_dir env self)].
Proof.
  intros Hread Hjson Himport Hhome.
  fold (base_dir env self) in *.
  unfold module_dir, base_dir in *.
  destruct Hhome as [Hhome|Hhome]; run_setup_steps;
    (eexists; split; [reflexivity|]; split; [reflexivity|]);
    rewrite <- ?app_assoc; reflexivity.
Qed.

Lemma execute_requires_spark_home_witness :
  exists w',
    execute Sample2.no_spark_env (Sample.job true) Sample.world
    = (Raise (Exception "must assign the environmental variable SPARK_HOME with the location of Spark"),
       w')
    /\ collection w' = collection Sample.world
    /\ count_starts (trace w') = 0%nat.
Proof.
  destruct (execute_requires_spark_home Sample2.no_spark_env (Sample.job true)
              Sample.world "{contributors: [a, b]}" Sample.info Sample.run_module)
    as (w' & Hrun & Hcoll & Htrace); [reflexivity | reflexivity | reflexivity | now left |].
  exists w'. split; [exact Hrun|]. split; [exact Hcoll|]. rewrite Htrace. reflexivity.
Defined.

(** X14: the engine session is not released when shipping the Thunder egg
    fails: everything up to the start of the session having gone through,
    an exception raised by [addPyFile] leaves [execute] with the session
    started and never stopped, no message sent and the collection as it
    was. *)
Theorem execute_add_py_file_leaks_session (env : Env) (self : Job) (w : World)
    (f : string) (info : json) (run_mod : RunModule) (spark_home s : string)
    (e : exn) :
  read_file env (base_dir env self +:+ "info.json") = Ok f ->
  json_loads env f = Ok info ->
  import_run env (module_dir env self) = Ok run_mod ->
  getenv env "SPARK_HOME" = Some spark_home ->
  spark_home <> "" ->
  import_thunder env = Ok tt ->
  read_file env "/root/spark-ec2/cluster-url" = Ok s ->
  thunder_start env (drop_last s) "neurofinder" = Ok tt ->
  add_py_file env = Raise e ->
  exists w' new,
    execute env self w = (Raise e, w')
    /\ collection w' = collection w
    /\ trace w' = trace w ++ new
    /\ last new = Some (EngineStart (drop_last s) "neurofinder")
    /\ count_starts new = 1%nat
    /\ count_stops new = 0%nat.
Proof.
  intros Hread Hjson Himport Hhome Hne Hthunder Hs Hstart Hadd.
  unfold module_dir, base_dir in *.
  destruct spark_home as [|a h]; [congruence|].
  run_setup_steps.
  eexists _, _. split; [reflexivity|]. cbn [collection trace].
  split; [reflexivity|]. rewrite <- ?app_assoc. cbn [app].
  split; [reflexivity|]. repeat split.
Qed.

Lemma execute_add_py_file_leaks_session_witness :
  exists w' new,
    execute Sample2.no_egg_env (Sample.job true) Sample.world
    = (Raise (Exception "no egg"), w')
    /\ trace w' = trace Sample.world ++ new
    /\ count_starts new = 1%nat
    /\ count_stops new = 0%nat.
Proof.
  destruct (execute_add_py_file_leaks_session Sample2.no_egg_env (Sample.job true)
              Sample.world "{contributors: [a, b]}" Sample.info Sample.run_module
              "/opt/spark" ("spark://master:7077" +:+ nl) (Exception "no egg"))
    as (w' & new & Hrun & _ & Htrace & _ & Hstarts & Hstops);
    try reflexivity; [discriminate|].
  exists w', new. auto.
Defined.

(** ** Publishing and loading *)

Lemma append_inj_l (a b c : string) : a +:+ b = a +:+ c -> b = c.
Proof.
  induction a as [|x a IH]; [now intros H|].
  rewrite !append_cons. intros [= H]. now apply IH.
Qed.

Lemma append_inj_r (a b c : string) : a +:+ c = b +:+ c -> a = b.
Proof.
  revert b. induction a as [|x a IH]; intros [|y b] H.
  - reflexivity.
  - exfalso. apply (f_equal String.length) in H.
    rewrite append_cons in H. cbn [String.length] in H.
    rewrite !length_append in H. cbn [String.length] in H. lia.
  - exfalso. apply (f_equal String.length) in H.
    rewrite append_cons in H. cbn [String.length] in H.
    rewrite !length_append in H. cbn [String.length] in H. lia.
  - rewrite !append_cons in H. injection H as -> H. f_equal. now apply IH.
Qed.

(** X15: [post_image] saves the image as PNG, with the gray colour map
    unless the array has three dimensions, and puts it in the job's bucket
    under [neurofinder/images/<id>/<folder>/<filename>.png]; the put is
    recorded only when both steps went through, an exception of either
    leaves the trace as it was, and the collection is never touched.  Two
    folders never share a key, so the images of the data sets do not
    overwrite each other. *)
Theorem post_image_publishes (env : Env) (self : Job) (im : Image)
    (folder filename : string) (w : World) :
  let gray := negb (Nat.eqb (ndim im) 3) in
  let key := image_key self folder filename in
  post_image env self im folder filename w
  = match imsave env im gray with
    | Raise e => (Raise e, w)
    | Ok png =>
        match s3_put env (bucket self) key png with
        | Raise e => (Raise e, w)
        | Ok _ => (Ok tt, mkWorld (collection w) (now w) (trace w ++ [S3Put key]))
        end
    end
  /\ forall folder', image_key self folder filename = image_key self folder' filename ->
                     folder = folder'.
Proof.
  intros gray key. subst gray key. split.
  - unfold post_image, image_key. rewrite run_bind_lift.
    destruct (Nat.eqb (ndim im) 3); cbn [negb];
      (destruct (imsave env im _) as [png|e]; [|reflexivity]);
      rewrite run_bind_lift;
      (destruct (s3_put env (bucket self) _ png) as [[]|e]; reflexivity).
  - intros folder' H. unfold image_key in H.
    do 3 apply append_inj_l in H. now apply append_inj_r in H.
Qed.

Lemma load_info_same env dp name w : snd (load_info env dp name w) = w.
Proof.
  unfold load_info.
  destruct (split_slash dp) as [|b [|f [|s [|x l]]]]; try reflexivity.
  rewrite run_bind_lift. destruct (s3_get env b _) as [t|e]; [|reflexivity].
  rewrite run_bind_lift. now destruct (json_loads env t).
Qed.

Lemma split_slash_nonempty (s : string) : split_slash s <> [].
Proof.
  destruct s as [|c s]; [discriminate|]. cbn [split_slash].
  destruct (Ascii.eqb c "/"); [discriminate|]. now destruct (split_slash s).
Qed.

Lemma split_slash_join (s : string) : String.concat "/" (split_slash s) = s.
Proof.
  induction s as [|c s IH]; [reflexivity|].
  pose proof (split_slash_nonempty s) as Hne.
  cbn [split_slash]. destruct (Ascii.eqb c "/") eqn:Hc.
  - apply Ascii.eqb_eq in Hc. subst c.
    destruct (split_slash s) as [|h t] eqn:Hs; [congruence|].
    change (String.concat "/" ("" :: h :: t))
      with ("" +:+ "/" +:+ String.concat "/" (h :: t)).
    rewrite IH. reflexivity.
  - destruct (split_slash s) as [|h t] eqn:Hs; [congruence|].
    destruct t as [|h' t'].
    + simpl in IH. simpl. now rewrite IH.
    + change (String.concat "/" (String c h :: h' :: t'))
        with (String c (h +:+ "/" +:+ String.concat "/" (h' :: t'))).
      f_equal. exact IH.
Qed.

(** X16: [load_info] asks for a data path of exactly three components
    separated by slashes: with any other number it raises [ValueError];
    with [bucket/folder/subfolder] it reads
    [folder/subfolder/<name>/info.json] in that bucket and returns the
    parsed JSON, an exception of the read or of the parse being passed on.
    It never changes the world. *)
Theorem load_info_reads_dataset_info (env : Env) (dp name : string) (w : World) :
  snd (load_info env dp name w) = w
  /\ (length (split_slash dp) <> 3%nat ->
      fst (load_info env dp name w) = Raise ValueError)
  /\ (forall b f s, split_slash dp = [b; f; s] ->
      dp = b +:+ "/" +:+ f +:+ "/" +:+ s
      /\ fst (load_info env dp name w)
         = match s3_get env b (f +:+ "/" +:+ s +:+ "/" +:+ name +:+ "/info.json") with
           | Ok t => json_loads env t
           | Raise e => Raise e
           end).
Proof.
  split; [apply load_info_same|]. split.
  - intros Hlen. unfold load_info.
    destruct (split_slash dp) as [|b [|f [|s [|x l]]]]; try reflexivity.
    now contradiction Hlen.
  - intros b f s Hsplit. split.
    + rewrite <- (split_slash_join dp), Hsplit. reflexivity.
    + unfold load_info. rewrite Hsplit, run_bind_lift.
      destruct (s3_get env b _) as [t|e]; [|reflexivity].
      rewrite run_bind_lift. now destruct (json_loads env t).
Qed.

Lemma drop_last_snoc (s : string) (c : ascii) : drop_last (s +:+ String c "") = s.
Proof.
  induction s as [|x s IH]; [reflexivity|].
  rewrite append_cons. cbn [drop_last].
  destruct (s +:+ String c "") eqn:Hs.
  - destruct s; discriminate Hs.
  - now rewrite IH.
Qed.

(** X17: [get_master] returns the content of
    [/root/spark-ec2/cluster-url] without its last character, so a file
    holding the URL and a line break gives the URL; an empty file gives
    the empty string, and an unreadable file passes its exception on.  The
    world is left as it was. *)
Theorem get_master_strips_last (env : Env) (w : World) :
  (forall url c, read_file env "/root/spark-ec2/cluster-url" = Ok (url +:+ String c "") ->
                 get_master env w = (Ok url, w))
  /\ (read_file env "/root/spark-ec2/cluster-url" = Ok "" -> get_master env w = (Ok "", w))
  /\ (forall e, read_file env "/root/spark-ec2/cluster-url" = Raise e ->
                get_master env w = (Raise e, w)).
Proof.
  unfold get_master. repeat split.
  - intros url c H. rewrite run_bind_lift, H. unfold ret. now rewrite drop_last_snoc.
  - intros H. now rewrite run_bind_lift, H.
  - intros e H. now rewrite run_bind_lift, H.
Qed.

(** ** A data set that goes through *)

Lemma post_image_ok env self im folder filename w w' :
  post_image env self im folder filename w = (Ok tt, w') ->
  w' = mkWorld (collection w) (now w) (trace w ++ [S3Put (image_key self folder filename)]).
Proof.
  unfold post_image, image_key. rewrite run_bind_lift.
  destruct (if Nat.eqb (ndim im) 3 then imsave env im false else imsave env im true)
    as [png|e]; [|discriminate].
  rewrite run_bind_lift.
  destruct (s3_put env (bucket self) _ png) as [[]|e]; [|discriminate].
  now intros [= <-].
Qed.

(** A [contributors] entry that is one text is joined character by
    character: a two-byte character stays whole. *)
Example join_comma_text :
  join_comma (JStr "ab") = Ok "a, b"
  /\ join_comma
       (JStr (String (Ascii.ascii_of_nat 195) (String (Ascii.ascii_of_nat 169) "x")))
     = Ok (String (Ascii.ascii_of_nat 195) (String (Ascii.ascii_of_nat 169) ", x"))
  /\ join_comma (JArr [JStr "ab"; JStr "c"]) = Ok "ab, c"
  /\ join_comma (JArr [JStr "ab"; JNum 1]) = Raise TypeError.
Proof. repeat split. Qed.

(** X18: the records of a data set that goes through are read off the
    collaborators as follows: accuracy is what [similarity] returned,
    overlap and distance are the NaN-skipping means of what [overlap] and
    [distance] returned, count is the [count] of the sources and area the
    plain mean of their [areas], the sums being numpy's pairwise sums in
    binary64; each record carries the data set's name
    and the contributors of its [info.json] joined by a comma and a
    space.  On the way the images and the sources were loaded and one
    image was published, in this order, and nothing else was touched. *)
Theorem process_dataset_values (env : Env) (self : Job) (run_mod : RunModule)
    (name : string) (metrics metrics' : Metrics) (w w' : World) :
  process_dataset env self run_mod data_path name metrics w = (Ok metrics', w') ->
  exists data truth sources accuracy ov di blob names contributors,
    loadImages env ("s3n://" +:+ data_path +:+ "/" +:+ name +:+ "/images/") = Ok data
    /\ loadSources env ("s3n://" +:+ data_path +:+ "/" +:+ name +:+ "/sources/sources.json")
       = Ok truth
    /\ run run_mod data = Ok sources
    /\ similarity truth sources = Ok accuracy
    /\ overlap truth sources = Ok ov
    /\ distance truth sources = Ok di
    /\ fst (load_info env data_path name w) = Ok blob
    /\ getitem blob "contributors" = Ok names
    /\ join_comma names = Ok contributors
    /\ metrics' = add_dataset name contributors accuracy (nanmean ov) (nanmean di)
                    (src_count sources) (mean (src_areas sources)) metrics
    /\ w' = mkWorld (collection w) (now w) (trace w ++ dataset_trace self name).
Proof.
  unfold process_dataset. intros H.
  rewrite run_bind_lift in H.
  destruct (loadImages env _) as [data|] eqn:Hdata; [|discriminate H].
  rewrite run_bind_emit, run_bind_lift in H.
  destruct (loadSources env _) as [truth|] eqn:Htruth; [|discriminate H].
  rewrite run_bind_emit, run_bind_lift in H.
  destruct (run run_mod data) as [sources|] eqn:Hsources; [|discriminate H].
  rewrite run_bind_lift in H.
  destruct (similarity truth sources) as [accuracy|] eqn:Hacc; [|discriminate H].
  rewrite run_bind_lift in H.
  destruct (overlap truth sources) as [ov|] eqn:Hov; [|discriminate H].
  rewrite run_bind_lift in H.
  destruct (distance truth sources) as [di|] eqn:Hdi; [|discriminate H].
  rewrite run_bind_def in H.
  match type of H with
  | context [load_info env data_path name ?w1] =>
      pose proof (load_info_same env data_path name w1) as Hsame;
      assert (Hblob : fst (load_info env data_path name w1)
                      = fst (load_info env data_path name w));
      [ unfold load_info; destruct (split_slash data_path) as [|b [|f [|s [|x l]]]];
        try reflexivity; rewrite !run_bind_lift;
        destruct (s3_get env b _) as [t|e]; [|reflexivity];
        rewrite !run_bind_lift; now destruct (json_loads env t)
      | destruct (load_info env data_path name w1) as [[blob|e] w2] eqn:Hinfo;
        [|discriminate H] ]
  end.
  cbn [fst snd] in Hsame, Hblob. subst w2.
  rewrite run_bind_lift in H.
  destruct (getitem blob "contributors") as [names|] eqn:Hnames; [|discriminate H].
  rewrite run_bind_lift in H.
  destruct (join_comma names) as [contributors|] eqn:Hjoin; [|discriminate H].
  rewrite run_bind_lift in H.
  destruct (images_mean data) as [base_im|] eqn:Hbase; [|discriminate H].
  rewrite run_bind_lift in H.
  destruct (src_masks sources base_im) as [im|] eqn:Hmasks; [|discriminate H].
  rewrite run_bind_def in H.
  destruct (post_image env self im name "sources" _) as [[[]|e] w3] eqn:Hpost;
    [|discriminate H].
  apply post_image_ok in Hpost. injection H as <- <-.
  exists data, truth, sources, accuracy, ov, di, blob, names, contributors.
  repeat (split; [first [assumption | reflexivity | now symmetry]|]).
  rewrite Hpost. cbn [collection now trace]. rewrite <- !app_assoc. reflexivity.
Qed.

Lemma process_dataset_values_witness :
  exists metrics' ov di,
    fst (process_dataset Sample.nan_env (Sample.job true) Sample.run_module data_path
           "00.01" empty_metrics Sample.world) = Ok metrics'
    /\ overlap (Sample.truth [NaN]) Sample.sources = Ok ov
    /\ distance (Sample.truth [NaN]) Sample.sources = Ok di
    /\ metrics' = add_dataset "00.01" "a, b" Sample.half (nanmean ov) (nanmean di)
                    10 (mean [float_of_Z 4; float_of_Z 6]) empty_metrics.
Proof.
  destruct (process_dataset_values Sample.nan_env (Sample.job true) Sample.run_module
              "00.01" empty_metrics
              (add_dataset "00.01" "a, b" Sample.half (nanmean [NaN])
                 (nanmean [float_of_Z 3]) 10 (mean [float_of_Z 4; float_of_Z 6])
                 empty_metrics)
              Sample.world
              (mkWorld (collection Sample.world) (now Sample.world)
                 (trace Sample.world ++ dataset_trace (Sample.job true) "00.01")))
    as (data & truth & sources & accuracy & ov & di & blob & names & contributors
        & _ & _ & _ & _ & _ & _ & _ & _ & _ & _ & _);
    [vm_compute; reflexivity|].
  exists (add_dataset "00.01" "a, b" Sample.half (nanmean [NaN])
            (nanmean [float_of_Z 3]) 10 (mean [float_of_Z 4; float_of_Z 6])
            empty_metrics), [NaN], [float_of_Z 3].
  split; [vm_compute; reflexivity|]. repeat split.
Defined.

(** ** A run that goes through *)

Lemma dom_add_dataset name c a o d n r (m : Metrics) :
  dom (add_dataset name c a o d n r m) = dom m.
Proof. unfold add_dataset, append_metric. now rewrite !dom_alter_L. Qed.

Lemma dom_empty_metrics :
  dom empty_metrics = list_to_set (C := gset string) metric_names.
Proof.
  unfold empty_metrics, metric_names. rewrite !dom_insert_L, dom_empty_L.
  simpl. set_solver.
Qed.

(** X19: when everything before the [try] block went through and both
    data sets are processed, [execute] returns the metrics with the
    overall records appended, under the five metric names and no other,
    next to the parsed [info]; it has loaded and published the data sets
    in their order, ["00.00"] then ["00.01"], sent "Execution successful"
    and stopped the engine; and the submission's record, if there is one,
    reads executed with [executed_at] at the clock. *)
Theorem execute_success (env : Env) (self : Job) (w : World) (info : json)
    (run_mod : RunModule) (spark_home master : string) (metrics0 : Metrics) :
  SetupOk env self info run_mod spark_home master ->
  fst (process_datasets env self run_mod data_path datasets empty_metrics w)
    = Ok metrics0 ->
  let metrics := append_overall <$> metrics0 in
  exists w',
    execute env self w = (Ok (Some metrics, info), w')
    /\ dom metrics = list_to_set (C := gset string) metric_names
    /\ trace w' = trace w ++ execute_intro env self spark_home master
                    ++ dataset_trace self "00.00" ++ dataset_trace self "00.01"
                    ++ success_tail
    /\ collection w' = update_one (id self) "executed_at" (VInt (now w))
                         (update_one (id self) "executed" (VBool true) (collection w))
    /\ (forall entry, find_one (id self) (collection w) = Some entry ->
        fst (check_status self "executed" w') = Ok (VBool true)
        /\ fst (check_status self "executed_at" w') = Ok (VInt (now w))).
Proof.
  intros Hsetup Hok metrics. subst metrics.
  destruct (process_datasets_run env self run_mod) as (r & evs & Hevs & Hrun).
  rewrite Hrun in Hok. cbn [fst] in Hok. subst r.
  rewrite (execute_run _ _ _ _ _ _ _ Hsetup). unfold execute_outcome.
  destruct (process_datasets env self run_mod data_path datasets empty_metrics
              (mkWorld (collection w) (now w)
                 (trace w ++ execute_intro env self spark_home master)))
    as [r1 w1] eqn:Hpd.
  pose proof Hpd as Hpd'. rewrite Hrun in Hpd'. injection Hpd' as <- Hw1.
  unfold datasets in Hpd. cbn [process_datasets] in Hpd.
  rewrite run_bind_def in Hpd.
  destruct (process_dataset env self run_mod data_path "00.00" empty_metrics _)
    as [[m0|e0] w0] eqn:H0; [|discriminate Hpd].
  rewrite run_bind_def in Hpd.
  destruct (process_dataset env self run_mod data_path "00.01" m0 w0)
    as [[m1|e1] w2] eqn:H1; [|discriminate Hpd].
  injection Hpd as <- <-.
  apply process_dataset_values in H0.
  destruct H0 as (? & ? & ? & ? & ? & ? & ? & ? & ? & _ & _ & _ & _ & _ & _ & _ & _ & _
                  & -> & ->).
  apply process_dataset_values in H1.
  destruct H1 as (? & ? & ? & ? & ? & ? & ? & ? & ? & _ & _ & _ & _ & _ & _ & _ & _ & _
                  & -> & ->).
  cbn [collection now trace].
  eexists. split; [reflexivity|]. cbn [collection now trace].
  split; [now rewrite dom_fmap_L, !dom_add_dataset, dom_empty_metrics|].
  split; [now rewrite <- !app_assoc|]. split; [reflexivity|].
  intros entry Hfind.
  unfold check_status, bind, get_collection, entry_getitem. cbn [collection fst].
  rewrite !find_one_update_one_same by discriminate. rewrite Hfind.
  cbn [fmap option_fmap option_map]. split.
  - rewrite lookup_insert_ne by discriminate. now rewrite lookup_insert_eq.
  - now rewrite lookup_insert_eq.
Qed.

Lemma execute_success_witness :
  exists w',
    fst (execute Sample.good_env (Sample.job true) Sample.world)
      = Ok (Some (Sample.run_metrics Sample.good_env), Sample.info)
    /\ w' = snd (execute Sample.good_env (Sample.job true) Sample.world)
    /\ dom (Sample.run_metrics Sample.good_env)
       = list_to_set (C := gset string) metric_names
    /\ fst (check_status (Sample.job true) "executed" w') = Ok (VBool true).
Proof.
  destruct (execute_success Sample.good_env (Sample.job true) Sample.world Sample.info
              Sample.run_module "/opt/spark" "spark://master:7077"
              (add_dataset "00.01" "a, b" Sample.half (nanmean [Sample.half])
                 (nanmean [float_of_Z 3]) 10 (mean [float_of_Z 4; float_of_Z 6])
                 (add_dataset "00.00" "a, b" Sample.half (nanmean [Sample.half])
                    (nanmean [float_of_Z 3]) 10 (mean [float_of_Z 4; float_of_Z 6])
                    empty_metrics)))
    as (w' & Hrun & Hdom & _ & _ & Hcheck);
    [apply sample_setup | vm_compute; reflexivity |].
  assert (Hm : Sample.run_metrics Sample.good_env
               = append_overall <$>
                 add_dataset "00.01" "a, b" Sample.half (nanmean [Sample.half])
                   (nanmean [float_of_Z 3]) 10 (mean [float_of_Z 4; float_of_Z 6])
                   (add_dataset "00.00" "a, b" Sample.half (nanmean [Sample.half])
                      (nanmean [float_of_Z 3]) 10 (mean [float_of_Z 4; float_of_Z 6])
                      empty_metrics))
    by (unfold Sample.run_metrics; now rewrite Hrun).
  exists w'. rewrite Hm. split; [now rewrite Hrun|]. split; [now rewrite Hrun|].
  split; [exact Hdom|]. now apply (Hcheck Sample.record).
Defined.

(** ** Validation and the flag it leaves *)

Lemma update_one_twice i k v k' v' c :
  k <> "id" -> k' <> "id" ->
  update_one i k' v' (update_one i k v (update_one i k' v' (update_one i k v c)))
  = update_one i k' v' (update_one i k v c).
Proof.
  intros Hk Hk'. induction c as [|d c IH]; [reflexivity|].
  cbn [update_one]. destruct (matches_id i d) eqn:Hd.
  - cbn [update_one]. rewrite matches_id_insert_ne, Hd by assumption.
    cbn [update_one]. rewrite !matches_id_insert_ne, Hd by assumption.
    cbn [update_one]. rewrite !matches_id_insert_ne, Hd by assumption.
    f_equal. apply map_eq. intros x.
    destruct (decide (x = k')) as [Hx'|Hx']; destruct (decide (x = k)) as [Hx|Hx];
      subst;
      repeat first [ rewrite lookup_insert_eq
                   | rewrite lookup_insert_ne by congruence ];
      reflexivity.
  - cbn [update_one]. rewrite Hd. cbn [update_one]. rewrite Hd.
    cbn [update_one]. rewrite Hd. f_equal. exact IH.
Qed.

Lemma check_status_collection self k w1 w2 :
  collection w1 = collection w2 ->
  fst (check_status self k w1) = fst (check_status self k w2).
Proof.
  intros Hc. unfold check_status, bind, get_collection, entry_getitem. rewrite Hc.
  destruct (find_one (id self) (collection w2)) as [d|]; [|reflexivity].
  now destruct (d !! k).
Qed.

(** X20: what [check_status "validated"] reads after a run of [validate]
    on a submission with a record: true, with [validated_at] at the clock,
    when every check passed; and otherwise exactly what it read before the
    run, so a submission validated earlier still reads validated after a
    run that fails or is cut short by an exception. *)
Theorem validated_flag_after_validate (env : Env) (self : Job) (w : World)
    (entry : doc) :
  find_one (id self) (collection w) = Some entry ->
  let w' := snd (validate env self w) in
  (checks_pass env self ->
   fst (check_status self "validated" w') = Ok (VBool true)
   /\ fst (check_status self "validated_at" w') = Ok (VInt (now w)))
  /\ (~ checks_pass env self ->
      fst (check_status self "validated" w') = fst (check_status self "validated" w)
      /\ fst (check_status self "validated_at" w')
         = fst (check_status self "validated_at" w)).
Proof.
  intros Hfind w'. subst w'. rewrite validate_run. unfold validate_outcome. split.
  - intros Hpass. apply checks_pass_iff in Hpass. destruct Hpass as (-> & -> & ->).
    unfold check_status, bind, get_collection, entry_getitem.
    cbn [snd collection fst].
    rewrite !find_one_update_one_same by discriminate. rewrite Hfind.
    cbn [fmap option_fmap option_map]. split.
    + rewrite lookup_insert_ne by discriminate. now rewrite lookup_insert_eq.
    + now rewrite lookup_insert_eq.
  - intros Hfail.
    destruct (complaint_metadata env self) as [c3|e] eqn:H3;
      [|split; now apply check_status_collection].
    destruct (complaint_import env self) as [c5|e] eqn:H5;
      [|split; now apply check_status_collection].
    pose proof (checks_pass_diagnostics env self c3 c5 H3 H5) as Hd.
    destruct (diagnostics env self c3 c5);
      [|split; now apply check_status_collection].
    exfalso. now apply Hfail, Hd.
Qed.

Lemma validated_flag_after_validate_witness :
  fst (check_status (Sample.job false) "validated" Sample.world) = Ok (VBool true)
  /\ ~ checks_pass Sample.no_run_env (Sample.job false)
  /\ fst (check_status (Sample.job false) "validated"
            (snd (validate Sample.no_run_env (Sample.job false) Sample.world)))
     = Ok (VBool true).
Proof.
  assert (Hfail : ~ checks_pass Sample.no_run_env (Sample.job false))
    by (intros (H & _); discriminate H).
  destruct (validated_flag_after_validate Sample.no_run_env (Sample.job false)
              Sample.world Sample.record) as [_ Hstale]; [reflexivity|].
  destruct (Hstale Hfail) as [Hflag _].
  split; [reflexivity|]. split; [exact Hfail|]. rewrite Hflag. reflexivity.
Defined.

(** X21: validating again changes nothing when nothing changed: a second
    run of [validate] at the same clock and with the same answers of the
    collaborators leaves the collection as the first run left it. *)
Theorem validate_twice (env : Env) (self : Job) (w : World) :
  let w1 := snd (validate env self w) in
  collection (snd (validate env self w1)) = collection w1
  /\ now w1 = now w.
Proof.
  intros w1. subst w1. rewrite !validate_run. unfold validate_outcome.
  destruct (complaint_metadata env self) as [c3|e]; [|split; reflexivity].
  destruct (complaint_import env self) as [c5|e]; [|split; reflexivity].
  destruct (diagnostics env self c3 c5); [|split; reflexivity].
  cbn [snd collection now]. split; [|reflexivity].
  apply update_one_twice; discriminate.
Qed.
